(** * Coal ash marketplace: order settlement, matching and dashboard

    A shallow embedding of [backend/server.py]: the pydantic models, the
    document store as the handlers use it, and the three handlers
    [create_order], [get_dashboard_analytics] and
    [get_matching_suggestions], followed by the properties established
    about them.  The product, demand, order-listing and authentication
    handlers and the admin script of [backend/create_admin.py] come after,
    with their own properties at the end.

    Conventions of the embedding.
    - A Python [int] is a [Z]; a Python [float] is a binary64 [float];
      [float * int] converts the integer first and raises [OverflowError]
      when it is out of range, as CPython does.
    - A collection is the list of its documents in the store's natural
      order; [find_one] and [update_one] act on the first document that
      satisfies the filter.  [insert_one] keeps a document as the driver
      encodes it: datetimes to the millisecond, integers in 8 bytes, an
      [OverflowError] otherwise; the model puts the new document last, and
      what is stated about inserted documents is stated up to the order of
      the collection.  [$inc] is a checked 64-bit addition.
    - A handler that writes is a function of the database returning either
      the exception it raised or its value, together with the database it
      leaves behind.  Handlers that only read are functions of the database.
    - Values drawn from outside (uuid4, the clock) are arguments. *)

From Stdlib Require Import ZArith List String Bool Floats Lia.
From Stdlib Require Import Sorted Permutation.
Import ListNotations.
Local Open Scope string_scope.
Local Open Scope list_scope.
Local Open Scope Z_scope.

(** ** Python values *)

(** A [datetime] counts the microseconds since the epoch. *)
Definition datetime := Z.

(** [float(z)] for an integer [z]: correctly rounded, [None] standing for
    the [OverflowError] raised when the result is not finite. *)
Definition float_of_int (z : Z) : option float :=
  match binary_normalize prec emax z 0 false with
  | S754_infinity _ => None
  | sf => Some (SF2Prim sf)
  end.

(** [x * z] for a float [x] and an integer [z]. *)
Definition float_mul_int (x : float) (z : Z) : option float :=
  option_map (PrimFloat.mul x) (float_of_int z).

(** A number as a response carries it: the literal [0] of the handlers is
    an [int], a stored amount is a [float]. *)
Inductive number :=
| PyInt (z : Z)
| PyFloat (f : float).

(** A value of a free-form [dict] field. *)
Inductive scalar :=
| SStr (s : string)
| SNum (n : number)
| SBool (b : bool).

Definition dict := list (string * scalar).

Inductive exn :=
| HTTPException (status_code : Z) (detail : string)
| OverflowError
| WriteError.

Definition HTTP_400_BAD_REQUEST := 400.
Definition HTTP_403_FORBIDDEN := 403.
Definition HTTP_404_NOT_FOUND := 404.

(** ** Enums *)

Inductive UserRole := SUPPLIER | BUYER | LOGISTICS | ADMIN.

Inductive CoalAshType := FLY_ASH | BOTTOM_ASH | POND_ASH.

Inductive OrderStatus := PENDING | CONFIRMED | IN_TRANSIT | DELIVERED | CANCELLED.

Definition UserRole_eqb (a b : UserRole) : bool :=
  match a, b with
  | SUPPLIER, SUPPLIER | BUYER, BUYER | LOGISTICS, LOGISTICS | ADMIN, ADMIN => true
  | _, _ => false
  end.

Definition CoalAshType_eqb (a b : CoalAshType) : bool :=
  match a, b with
  | FLY_ASH, FLY_ASH | BOTTOM_ASH, BOTTOM_ASH | POND_ASH, POND_ASH => true
  | _, _ => false
  end.

(** ** Models *)

Module User.
Record t := {
  id : string;
  email : string;
  company : string;
  contact_person : string;
  phone : string;
  role : UserRole;
  address : string;
  city : string;
  state : string;
  kyc_verified : bool;
  created_at : datetime;
  updated_at : datetime
}.
End User.

Module CoalAshProduct.
Record t := {
  id : string;
  supplier_id : string;
  title : string;
  ash_type : CoalAshType;
  quantity_available : Z;
  price_per_ton : float;
  location : string;
  city : string;
  state : string;
  quality_specs : dict;
  test_report_url : option string;
  description : string;
  is_active : bool;
  created_at : datetime;
  updated_at : datetime
}.

(** The document after [{"$inc": {"quantity_available": n}}]. *)
Definition inc_quantity_available (n : Z) (p : t) : t :=
  {| id := id p;
     supplier_id := supplier_id p;
     title := title p;
     ash_type := ash_type p;
     quantity_available := quantity_available p + n;
     price_per_ton := price_per_ton p;
     location := location p;
     city := city p;
     state := state p;
     quality_specs := quality_specs p;
     test_report_url := test_report_url p;
     description := description p;
     is_active := is_active p;
     created_at := created_at p;
     updated_at := updated_at p |}.
End CoalAshProduct.

Module DemandRequest.
Record t := {
  id : string;
  buyer_id : string;
  title : string;
  ash_type : CoalAshType;
  quantity_required : Z;
  max_price_per_ton : float;
  delivery_location : string;
  delivery_city : string;
  delivery_state : string;
  required_by : datetime;
  quality_requirements : dict;
  description : string;
  is_active : bool;
  created_at : datetime
}.
End DemandRequest.

Module Order.
Record t := {
  id : string;
  buyer_id : string;
  supplier_id : string;
  product_id : string;
  demand_id : option string;
  quantity : Z;
  agreed_price_per_ton : float;
  total_amount : float;
  delivery_address : string;
  status : OrderStatus;
  contract_terms : option string;
  created_at : datetime;
  updated_at : datetime
}.
End Order.

Module OrderCreate.
Record t := {
  product_id : string;
  quantity : Z;
  delivery_address : string;
  contract_terms : option string
}.
End OrderCreate.

(** What the default factories of [Order] draw at one construction. *)
Record Defaults := {
  uuid4 : string;
  now_created : datetime;
  now_updated : datetime
}.

(** ** What the store keeps

    A document reaches a collection through the driver's encoder, which
    keeps a datetime to the millisecond and raises [OverflowError] for an
    integer that does not fit 8 bytes; the store's own integer arithmetic
    is 64-bit and checked. *)

Definition INT64_MIN : Z := - 2 ^ 63.

Definition INT64_MAX : Z := 2 ^ 63 - 1.

Definition int64 (z : Z) : bool := (INT64_MIN <=? z) && (z <=? INT64_MAX).

Definition to_millis (t : datetime) : datetime := t / 1000 * 1000.

(** The integers of a free-form [dict] field all fit. *)
Definition dict_fits (d : dict) : bool :=
  forallb (fun kv => match snd kv with
                     | SNum (PyInt z) => int64 z
                     | _ => true
                     end) d.

(** The signed 64-bit addition of [b] to [a] leaves the range. *)
Definition add_overflows (a b : Z) : bool :=
  ((0 <? b) && (INT64_MAX - b <? a)) || ((b <? 0) && (a <? INT64_MIN - b)).

(** [encode doc] is the document as the store keeps it, [None] when the
    encoder raises [OverflowError]. *)
Class Encoded (A : Type) := encode : A -> option A.

Definition order_kept (o : Order.t) : Order.t :=
  {| Order.id := Order.id o;
     Order.buyer_id := Order.buyer_id o;
     Order.supplier_id := Order.supplier_id o;
     Order.product_id := Order.product_id o;
     Order.demand_id := Order.demand_id o;
     Order.quantity := Order.quantity o;
     Order.agreed_price_per_ton := Order.agreed_price_per_ton o;
     Order.total_amount := Order.total_amount o;
     Order.delivery_address := Order.delivery_address o;
     Order.status := Order.status o;
     Order.contract_terms := Order.contract_terms o;
     Order.created_at := to_millis (Order.created_at o);
     Order.updated_at := to_millis (Order.updated_at o) |}.

Definition product_kept (p : CoalAshProduct.t) : CoalAshProduct.t :=
  {| CoalAshProduct.id := CoalAshProduct.id p;
     CoalAshProduct.supplier_id := CoalAshProduct.supplier_id p;
     CoalAshProduct.title := CoalAshProduct.title p;
     CoalAshProduct.ash_type := CoalAshProduct.ash_type p;
     CoalAshProduct.quantity_available := CoalAshProduct.quantity_available p;
     CoalAshProduct.price_per_ton := CoalAshProduct.price_per_ton p;
     CoalAshProduct.location := CoalAshProduct.location p;
     CoalAshProduct.city := CoalAshProduct.city p;
     CoalAshProduct.state := CoalAshProduct.state p;
     CoalAshProduct.quality_specs := CoalAshProduct.quality_specs p;
     CoalAshProduct.test_report_url := CoalAshProduct.test_report_url p;
     CoalAshProduct.description := CoalAshProduct.description p;
     CoalAshProduct.is_active := CoalAshProduct.is_active p;
     CoalAshProduct.created_at := to_millis (CoalAshProduct.created_at p);
     CoalAshProduct.updated_at := to_millis (CoalAshProduct.updated_at p) |}.

Definition demand_kept (d : DemandRequest.t) : DemandRequest.t :=
  {| DemandRequest.id := DemandRequest.id d;
     DemandRequest.buyer_id := DemandRequest.buyer_id d;
     DemandRequest.title := DemandRequest.title d;
     DemandRequest.ash_type := DemandRequest.ash_type d;
     DemandRequest.quantity_required := DemandRequest.quantity_required d;
     DemandRequest.max_price_per_ton := DemandRequest.max_price_per_ton d;
     DemandRequest.delivery_location := DemandRequest.delivery_location d;
     DemandRequest.delivery_city := DemandRequest.delivery_city d;
     DemandRequest.delivery_state := DemandRequest.delivery_state d;
     DemandRequest.required_by := to_millis (DemandRequest.required_by d);
     DemandRequest.quality_requirements := DemandRequest.quality_requirements d;
     DemandRequest.description := DemandRequest.description d;
     DemandRequest.is_active := DemandRequest.is_active d;
     DemandRequest.created_at := to_millis (DemandRequest.created_at d) |}.

Definition user_kept (u : User.t) : User.t :=
  {| User.id := User.id u;
     User.email := User.email u;
     User.company := User.company u;
     User.contact_person := User.contact_person u;
     User.phone := User.phone u;
     User.role := User.role u;
     User.address := User.address u;
     User.city := User.city u;
     User.state := User.state u;
     User.kyc_verified := User.kyc_verified u;
     User.created_at := to_millis (User.created_at u);
     User.updated_at := to_millis (User.updated_at u) |}.

#[export] Instance encode_order : Encoded Order.t :=
  fun o => if int64 (Order.quantity o) then Some (order_kept o) else None.

#[export] Instance encode_product : Encoded CoalAshProduct.t :=
  fun p =>
    if int64 (CoalAshProduct.quantity_available p)
       && dict_fits (CoalAshProduct.quality_specs p)
    then Some (product_kept p) else None.

#[export] Instance encode_demand : Encoded DemandRequest.t :=
  fun d =>
    if int64 (DemandRequest.quantity_required d)
       && dict_fits (DemandRequest.quality_requirements d)
    then Some (demand_kept d) else None.

(** ** The document store *)

Module Collection.
Section Ops.
Context {A : Type}.

(** A cursor yields the matching documents in the store's natural order,
    which is the order of the list, whatever that order is. *)
Definition find (filter_query : A -> bool) (c : list A) : list A :=
  filter filter_query c.

Definition to_list (length : nat) (cursor : list A) : list A :=
  firstn length cursor.

Definition find_one (filter_query : A -> bool) (c : list A) : option A :=
  List.find filter_query c.

(** The encoded document joins the collection; the store does not promise
    where, and the statements read the result up to a permutation. *)
Definition insert_one `{Encoded A} (doc : A) (c : list A) : option (list A) :=
  match encode doc with
  | Some kept => Some (c ++ [kept])
  | None => None
  end.

Fixpoint update_one (filter_query : A -> bool) (update : A -> A)
         (c : list A) : list A :=
  match c with
  | [] => []
  | doc :: rest =>
      if filter_query doc then update doc :: rest
      else doc :: update_one filter_query update rest
  end.

Definition count_documents (filter_query : A -> bool) (c : list A) : nat :=
  List.length (filter filter_query c).
End Ops.
End Collection.

Module Database.
Record t := {
  users : list User.t;
  products : list CoalAshProduct.t;
  demands : list DemandRequest.t;
  orders : list Order.t
}.

Definition with_products (ps : list CoalAshProduct.t) (db : t) : t :=
  {| users := users db; products := ps;
     demands := demands db; orders := orders db |}.

Definition with_orders (os : list Order.t) (db : t) : t :=
  {| users := users db; products := products db;
     demands := demands db; orders := os |}.
End Database.

(** ** Handlers that write: state and exceptions *)

Definition handler (A : Type) : Type := Database.t -> (exn + A) * Database.t.

Definition ret {A} (a : A) : handler A := fun db => (inr a, db).

Definition raise {A} (e : exn) : handler A := fun db => (inl e, db).

Definition bind {A B} (m : handler A) (k : A -> handler B) : handler B :=
  fun db =>
    match m db with
    | (inl e, db') => (inl e, db')
    | (inr a, db') => k a db'
    end.

Notation "x <- m ;; k" := (bind m (fun x => k))
  (at level 61, m at next level, right associativity).
Notation "m ;;; k" := (bind m (fun _ => k))
  (at level 61, right associativity).

(** A Python computation that may raise, run inside a handler. *)
Definition py {A} (v : option A) : handler A :=
  match v with
  | Some a => ret a
  | None => raise OverflowError
  end.

Definition products_find_one (q : CoalAshProduct.t -> bool)
  : handler (option CoalAshProduct.t) :=
  fun db => (inr (Collection.find_one q (Database.products db)), db).

Definition orders_insert_one (doc : Order.t) : handler unit :=
  fun db =>
    match Collection.insert_one doc (Database.orders db) with
    | Some orders => (inr tt, Database.with_orders orders db)
    | None => (inl OverflowError, db)
    end.

(** [update_one(q, {"$inc": {"quantity_available": n}})]: the operand is
    encoded by the driver, the addition is done and checked by the store;
    a filter that matches nothing updates nothing. *)
Definition products_update_one (q : CoalAshProduct.t -> bool) (n : Z)
  : handler unit :=
  fun db =>
    if negb (int64 n) then (inl OverflowError, db)
    else
      match Collection.find_one q (Database.products db) with
      | Some p =>
          if add_overflows (CoalAshProduct.quantity_available p) n
          then (inl WriteError, db)
          else
            (inr tt,
             Database.with_products
               (Collection.update_one
                  q (CoalAshProduct.inc_quantity_available n)
                  (Database.products db)) db)
      | None => (inr tt, db)
      end.

(** The filter [{"id": product_id}]. *)
Definition product_by_id (product_id : string) (p : CoalAshProduct.t) : bool :=
  String.eqb (CoalAshProduct.id p) product_id.

(** ** Order endpoint *)

(** The [Order] validated from the [order_dict] that [create_order]
    assembles out of the request, the caller and the product document;
    [total] is the amount already computed. *)
Definition new_order (d : Defaults) (order_data : OrderCreate.t)
           (current_user : User.t) (product : CoalAshProduct.t) (total : float)
  : Order.t :=
  {| Order.id := uuid4 d;
     Order.buyer_id := User.id current_user;
     Order.supplier_id := CoalAshProduct.supplier_id product;
     Order.product_id := OrderCreate.product_id order_data;
     Order.demand_id := None;
     Order.quantity := OrderCreate.quantity order_data;
     Order.agreed_price_per_ton := CoalAshProduct.price_per_ton product;
     Order.total_amount := total;
     Order.delivery_address := OrderCreate.delivery_address order_data;
     Order.status := PENDING;
     Order.contract_terms := OrderCreate.contract_terms order_data;
     Order.created_at := now_created d;
     Order.updated_at := now_updated d |}.

Definition create_order (d : Defaults) (order_data : OrderCreate.t)
           (current_user : User.t) : handler Order.t :=
  if negb (UserRole_eqb (User.role current_user) BUYER) then
    raise (HTTPException HTTP_403_FORBIDDEN "Only buyers can create orders")
  else
    product <- products_find_one (product_by_id (OrderCreate.product_id order_data)) ;;
    match product with
    | None => raise (HTTPException HTTP_404_NOT_FOUND "Product not found")
    | Some product =>
        if CoalAshProduct.quantity_available product <? OrderCreate.quantity order_data
        then raise (HTTPException HTTP_400_BAD_REQUEST "Insufficient quantity available")
        else
          total <- py (float_mul_int (CoalAshProduct.price_per_ton product)
                                     (OrderCreate.quantity order_data)) ;;
          let order := new_order d order_data current_user product total in
          orders_insert_one order ;;;
          products_update_one
            (product_by_id (OrderCreate.product_id order_data))
            (- OrderCreate.quantity order_data) ;;;
          ret order
    end.

(** ** Analytics endpoint *)

Inductive Dashboard :=
| AdminDashboard (total_users total_products total_orders total_demands : nat)
                 (recent_orders : list Order.t)
| SupplierDashboard (my_products my_orders : nat) (total_revenue : number)
                    (recent_orders : list Order.t)
| BuyerDashboard (my_demands my_orders : nat) (total_spent : number)
                 (recent_orders : list Order.t).

(** [.sort("created_at", -1)]: latest first; documents with equal
    [created_at] keep their natural order. *)
Fixpoint insert_created_at_desc (o : Order.t) (sorted : list Order.t)
  : list Order.t :=
  match sorted with
  | [] => [o]
  | x :: rest =>
      if Order.created_at x <=? Order.created_at o then o :: sorted
      else x :: insert_created_at_desc o rest
  end.

Definition sort_created_at_desc (c : list Order.t) : list Order.t :=
  fold_right insert_created_at_desc [] c.

Definition order_supplier_is (user_id : string) (o : Order.t) : bool :=
  String.eqb (Order.supplier_id o) user_id.

Definition order_buyer_is (user_id : string) (o : Order.t) : bool :=
  String.eqb (Order.buyer_id o) user_id.

Definition product_supplier_is (user_id : string) (p : CoalAshProduct.t) : bool :=
  String.eqb (CoalAshProduct.supplier_id p) user_id.

Definition demand_buyer_is (user_id : string) (d : DemandRequest.t) : bool :=
  String.eqb (DemandRequest.buyer_id d) user_id.

Section Analytics.
(** The [$sum] accumulator of the store's [$group] stage over the
    doubles it is given, in the order it meets them.  It runs inside the
    store; what the statements take of it is [exact_on_whole] below. *)
Variable group_sum : list float -> float.

(** [aggregate([{"$match": m}, {"$group": {"_id": None, "total":
    {"$sum": "$total_amount"}}}])]: one group when a document matches,
    none otherwise. *)
Definition aggregate_total (m : Order.t -> bool) (c : list Order.t)
  : list float :=
  match Collection.find m c with
  | [] => []
  | matched => [group_sum (map Order.total_amount matched)]
  end.

(** [total[0]["total"] if total else 0] *)
Definition total_or_zero (total : list float) : number :=
  match total with
  | [] => PyInt 0
  | t :: _ => PyFloat t
  end.

Definition recent (m : Order.t -> bool) (c : list Order.t) : list Order.t :=
  Collection.to_list 5 (firstn 5 (sort_created_at_desc (Collection.find m c))).

(** [None] is the handler falling off its last branch. *)
Definition get_dashboard_analytics (current_user : User.t) (db : Database.t)
  : option Dashboard :=
  let uid := User.id current_user in
  match User.role current_user with
  | ADMIN =>
      Some (AdminDashboard
              (Collection.count_documents (fun _ => true) (Database.users db))
              (Collection.count_documents CoalAshProduct.is_active (Database.products db))
              (Collection.count_documents (fun _ => true) (Database.orders db))
              (Collection.count_documents DemandRequest.is_active (Database.demands db))
              (recent (fun _ => true) (Database.orders db)))
  | SUPPLIER =>
      Some (SupplierDashboard
              (Collection.count_documents (product_supplier_is uid) (Database.products db))
              (Collection.count_documents (order_supplier_is uid) (Database.orders db))
              (total_or_zero
                 (Collection.to_list 1
                    (aggregate_total (order_supplier_is uid) (Database.orders db))))
              (recent (order_supplier_is uid) (Database.orders db)))
  | BUYER =>
      Some (BuyerDashboard
              (Collection.count_documents (demand_buyer_is uid) (Database.demands db))
              (Collection.count_documents (order_buyer_is uid) (Database.orders db))
              (total_or_zero
                 (Collection.to_list 1
                    (aggregate_total (order_buyer_is uid) (Database.orders db))))
              (recent (order_buyer_is uid) (Database.orders db)))
  | LOGISTICS => None
  end.
End Analytics.

(** ** Supply-demand matching *)

Inductive Suggestion :=
| DemandSuggestion (demand : DemandRequest.t)
                   (matching_products : list CoalAshProduct.t)
| ProductSuggestion (product : CoalAshProduct.t)
                    (matching_demands : list DemandRequest.t).

(** [{"$gte": y}] on a double field holding [x]; [{"$lte": y}] is
    [PrimFloat.leb x y].  Both are the IEEE comparison of the two doubles. *)
Definition float_geb (x y : float) : bool := PrimFloat.leb y x.

(** The query on products issued for one demand of the buyer. *)
Definition products_query (demand : DemandRequest.t) (p : CoalAshProduct.t) : bool :=
  CoalAshType_eqb (CoalAshProduct.ash_type p) (DemandRequest.ash_type demand)
  && (CoalAshProduct.quantity_available p >=? DemandRequest.quantity_required demand)
  && PrimFloat.leb (CoalAshProduct.price_per_ton p)
                   (DemandRequest.max_price_per_ton demand)
  && CoalAshProduct.is_active p.

(** The query on demands issued for one product of the supplier. *)
Definition demands_query (product : CoalAshProduct.t) (d : DemandRequest.t) : bool :=
  CoalAshType_eqb (DemandRequest.ash_type d) (CoalAshProduct.ash_type product)
  && (DemandRequest.quantity_required d <=? CoalAshProduct.quantity_available product)
  && float_geb (DemandRequest.max_price_per_ton d)
               (CoalAshProduct.price_per_ton product)
  && DemandRequest.is_active d.

Definition suggest_for_demand (db : Database.t) (demand : DemandRequest.t)
  : list Suggestion :=
  let matching_products :=
    Collection.to_list 10
      (Collection.find (products_query demand) (Database.products db)) in
  match matching_products with
  | [] => []
  | _ => [DemandSuggestion demand matching_products]
  end.

Definition suggest_for_product (db : Database.t) (product : CoalAshProduct.t)
  : list Suggestion :=
  let matching_demands :=
    Collection.to_list 10
      (Collection.find (demands_query product) (Database.demands db)) in
  match matching_demands with
  | [] => []
  | _ => [ProductSuggestion product matching_demands]
  end.

Definition get_matching_suggestions (current_user : User.t) (db : Database.t)
  : list Suggestion :=
  let uid := User.id current_user in
  match User.role current_user with
  | BUYER =>
      let demands :=
        Collection.to_list 1000
          (Collection.find
             (fun d => demand_buyer_is uid d && DemandRequest.is_active d)
             (Database.demands db)) in
      flat_map (suggest_for_demand db) demands
  | SUPPLIER =>
      let products :=
        Collection.to_list 1000
          (Collection.find
             (fun p => product_supplier_is uid p && CoalAshProduct.is_active p)
             (Database.products db)) in
      flat_map (suggest_for_product db) products
  | _ => []
  end.

(** The counterparts one suggestion carries. *)
Definition counterparts (s : Suggestion) : nat :=
  match s with
  | DemandSuggestion _ matching_products => List.length matching_products
  | ProductSuggestion _ matching_demands => List.length matching_demands
  end.

(** ** Vocabulary of the statements *)

(** The database once [create_order] has recorded its order for product
    document [p] with amount [total], the availability not yet moved. *)
Definition recorded (d : Defaults) (order_data : OrderCreate.t)
           (current_user : User.t) (p : CoalAshProduct.t) (total : float)
           (db : Database.t) : Database.t :=
  Database.with_orders
    (Database.orders db
     ++ [order_kept (new_order d order_data current_user p total)])
    db.

(** The database [create_order] leaves behind when it succeeds on product
    document [p] with amount [total]. *)
Definition settled (d : Defaults) (order_data : OrderCreate.t)
           (current_user : User.t) (p : CoalAshProduct.t) (total : float)
           (db : Database.t) : Database.t :=
  Database.with_products
    (Collection.update_one
       (product_by_id (OrderCreate.product_id order_data))
       (CoalAshProduct.inc_quantity_available (- OrderCreate.quantity order_data))
       (Database.products db))
    (Database.with_orders
       (Database.orders db
        ++ [order_kept (new_order d order_data current_user p total)])
       db).

(** The product document the request refers to, as [find_one] returns it. *)
Definition referenced (order_data : OrderCreate.t) (db : Database.t)
  : option CoalAshProduct.t :=
  Collection.find_one (product_by_id (OrderCreate.product_id order_data))
                      (Database.products db).

(** Two product documents that agree on every field but
    [quantity_available]. *)
Definition same_but_quantity (p p' : CoalAshProduct.t) : Prop :=
  CoalAshProduct.id p' = CoalAshProduct.id p
  /\ CoalAshProduct.supplier_id p' = CoalAshProduct.supplier_id p
  /\ CoalAshProduct.title p' = CoalAshProduct.title p
  /\ CoalAshProduct.ash_type p' = CoalAshProduct.ash_type p
  /\ CoalAshProduct.price_per_ton p' = CoalAshProduct.price_per_ton p
  /\ CoalAshProduct.location p' = CoalAshProduct.location p
  /\ CoalAshProduct.city p' = CoalAshProduct.city p
  /\ CoalAshProduct.state p' = CoalAshProduct.state p
  /\ CoalAshProduct.quality_specs p' = CoalAshProduct.quality_specs p
  /\ CoalAshProduct.test_report_url p' = CoalAshProduct.test_report_url p
  /\ CoalAshProduct.description p' = CoalAshProduct.description p
  /\ CoalAshProduct.is_active p' = CoalAshProduct.is_active p
  /\ CoalAshProduct.created_at p' = CoalAshProduct.created_at p
  /\ CoalAshProduct.updated_at p' = CoalAshProduct.updated_at p.

(** The preconditions [create_order] enforces. *)
Definition enforced_preconditions (order_data : OrderCreate.t)
           (current_user : User.t) (db : Database.t) : Prop :=
  User.role current_user = BUYER
  /\ exists p, referenced order_data db = Some p
               /\ OrderCreate.quantity order_data
                  <= CoalAshProduct.quantity_available p.

(** The preconditions as the specification lists them: the enforced ones
    and an active product. *)
Definition listed_preconditions (order_data : OrderCreate.t)
           (current_user : User.t) (db : Database.t) : Prop :=
  User.role current_user = BUYER
  /\ exists p, referenced order_data db = Some p
               /\ CoalAshProduct.is_active p = true
               /\ OrderCreate.quantity order_data
                  <= CoalAshProduct.quantity_available p.





(** [P] is among the products suggested to caller [b] for demand [D]. *)
Definition offered_for_demand (b : User.t) (db : Database.t)
           (D : DemandRequest.t) (P : CoalAshProduct.t) : Prop :=
  exists matching_products,
    In (DemandSuggestion D matching_products) (get_matching_suggestions b db)
    /\ In P matching_products.

(** [D] is among the demands suggested to caller [s] for product [P]. *)
Definition offered_for_product (s : User.t) (db : Database.t)
           (P : CoalAshProduct.t) (D : DemandRequest.t) : Prop :=
  exists matching_demands,
    In (ProductSuggestion P matching_demands) (get_matching_suggestions s db)
    /\ In D matching_demands.

(** ** Sample documents

    The scenario of the testable properties: a lot of 100 t of fly ash at
    50 per ton, a demand for 80 t at no more than 60 per ton. *)

Definition supplier1 : User.t :=
  {| User.id := "s1"; User.email := "s1@example.com"; User.company := "Plant";
     User.contact_person := "S"; User.phone := "1"; User.role := SUPPLIER;
     User.address := "a"; User.city := "c"; User.state := "st";
     User.kyc_verified := false; User.created_at := 0; User.updated_at := 0 |}.

Definition buyer1 : User.t :=
  {| User.id := "b1"; User.email := "b1@example.com"; User.company := "Cement";
     User.contact_person := "B"; User.phone := "2"; User.role := BUYER;
     User.address := "a"; User.city := "c"; User.state := "st";
     User.kyc_verified := false; User.created_at := 0; User.updated_at := 0 |}.

Definition carrier1 : User.t :=
  {| User.id := "l1"; User.email := "l1@example.com"; User.company := "Haul";
     User.contact_person := "L"; User.phone := "3"; User.role := LOGISTICS;
     User.address := "a"; User.city := "c"; User.state := "st";
     User.kyc_verified := false; User.created_at := 0; User.updated_at := 0 |}.

Definition lot (available : Z) (active : bool) : CoalAshProduct.t :=
  {| CoalAshProduct.id := "p1"; CoalAshProduct.supplier_id := "s1";
     CoalAshProduct.title := "Fly ash"; CoalAshProduct.ash_type := FLY_ASH;
     CoalAshProduct.quantity_available := available;
     CoalAshProduct.price_per_ton := 50%float;
     CoalAshProduct.location := "yard"; CoalAshProduct.city := "c";
     CoalAshProduct.state := "st"; CoalAshProduct.quality_specs := [];
     CoalAshProduct.test_report_url := None;
     CoalAshProduct.description := ""; CoalAshProduct.is_active := active;
     CoalAshProduct.created_at := 0; CoalAshProduct.updated_at := 0 |}.

Definition demand_of (n : string) : DemandRequest.t :=
  {| DemandRequest.id := n; DemandRequest.buyer_id := "b1";
     DemandRequest.title := "Need fly ash"; DemandRequest.ash_type := FLY_ASH;
     DemandRequest.quantity_required := 80;
     DemandRequest.max_price_per_ton := 60%float;
     DemandRequest.delivery_location := "site";
     DemandRequest.delivery_city := "c"; DemandRequest.delivery_state := "st";
     DemandRequest.required_by := 10; DemandRequest.quality_requirements := [];
     DemandRequest.description := ""; DemandRequest.is_active := true;
     DemandRequest.created_at := 0 |}.

Definition request (q : Z) : OrderCreate.t :=
  {| OrderCreate.product_id := "p1"; OrderCreate.quantity := q;
     OrderCreate.delivery_address := "site"; OrderCreate.contract_terms := None |}.

Definition drawn : Defaults :=
  {| uuid4 := "o1"; now_created := 1000; now_updated := 2000 |}.

Definition db_with (p : CoalAshProduct.t) (ds : list DemandRequest.t) : Database.t :=
  {| Database.users := [supplier1; buyer1; carrier1];
     Database.products := [p]; Database.demands := ds; Database.orders := [] |}.

(** Eleven demands that the lot of 100 t satisfies, the last one ["d11"]. *)
Definition eleven_demands : list DemandRequest.t :=
  map demand_of ["d1"; "d2"; "d3"; "d4"; "d5"; "d6"; "d7"; "d8"; "d9"; "d10"; "d11"].

(** One accumulator a store could use: a running sum from the left. *)
Definition running_sum (amounts : list float) : float :=
  fold_left PrimFloat.add amounts 0%float.

(** A database in which supplier ["s1"] has two orders. *)
Definition db_two_orders : Database.t :=
  {| Database.users := [supplier1; buyer1; carrier1];
     Database.products := [lot 60 true];
     Database.demands := [];
     Database.orders :=
       [new_order drawn (request 30) buyer1 (lot 100 true) 1500%float;
        new_order drawn (request 10) buyer1 (lot 70 true) 500%float] |}.

(** ** Orders of the caller *)

Definition get_my_orders (current_user : User.t) (db : Database.t)
  : exn + list Order.t :=
  let uid := User.id current_user in
  match User.role current_user with
  | BUYER =>
      inr (Collection.to_list 1000
             (Collection.find (order_buyer_is uid) (Database.orders db)))
  | SUPPLIER =>
      inr (Collection.to_list 1000
             (Collection.find (order_supplier_is uid) (Database.orders db)))
  | _ => inl (HTTPException HTTP_403_FORBIDDEN "Access denied")
  end.

(** ** Product endpoints *)

Module ProductCreate.
Record t := {
  title : string;
  ash_type : CoalAshType;
  quantity_available : Z;
  price_per_ton : float;
  location : string;
  city : string;
  state : string;
  quality_specs : dict;
  test_report_url : option string;
  description : string
}.
End ProductCreate.

(** The [CoalAshProduct] validated from the request with the caller as
    its supplier; [id], [is_active] and the two dates take their defaults. *)
Definition new_product (d : Defaults) (product_data : ProductCreate.t)
           (current_user : User.t) : CoalAshProduct.t :=
  {| CoalAshProduct.id := uuid4 d;
     CoalAshProduct.supplier_id := User.id current_user;
     CoalAshProduct.title := ProductCreate.title product_data;
     CoalAshProduct.ash_type := ProductCreate.ash_type product_data;
     CoalAshProduct.quantity_available := ProductCreate.quantity_available product_data;
     CoalAshProduct.price_per_ton := ProductCreate.price_per_ton product_data;
     CoalAshProduct.location := ProductCreate.location product_data;
     CoalAshProduct.city := ProductCreate.city product_data;
     CoalAshProduct.state := ProductCreate.state product_data;
     CoalAshProduct.quality_specs := ProductCreate.quality_specs product_data;
     CoalAshProduct.test_report_url := ProductCreate.test_report_url product_data;
     CoalAshProduct.description := ProductCreate.description product_data;
     CoalAshProduct.is_active := true;
     CoalAshProduct.created_at := now_created d;
     CoalAshProduct.updated_at := now_updated d |}.

Definition products_insert_one (doc : CoalAshProduct.t) : handler unit :=
  fun db =>
    match Collection.insert_one doc (Database.products db) with
    | Some products => (inr tt, Database.with_products products db)
    | None => (inl OverflowError, db)
    end.

Definition create_product (d : Defaults) (product_data : ProductCreate.t)
           (current_user : User.t) : handler CoalAshProduct.t :=
  if negb (UserRole_eqb (User.role current_user) SUPPLIER) then
    raise (HTTPException HTTP_403_FORBIDDEN "Only suppliers can create products")
  else
    let product := new_product d product_data current_user in
    products_insert_one product ;;;
    ret product.

(** Truth values of the optional query parameters: an empty string, the
    integer 0 and the floats 0.0 and -0.0 are false. *)
Definition str_truthy (s : string) : bool := negb (String.eqb s "").

Definition int_truthy (z : Z) : bool := negb (z =? 0).

Definition float_truthy (x : float) : bool := negb (PrimFloat.eqb x 0%float).

(** An exception of the store that no handler catches. *)
Inductive store_error := OperationFailure.

(** The [filter_query] of [get_products] once the city pattern is
    compiled to [by_city]. *)
Definition products_filter (ash_type : option CoalAshType)
           (by_city : string -> bool) (min_quantity : option Z)
           (max_price : option float) (p : CoalAshProduct.t) : bool :=
  CoalAshProduct.is_active p
  && match ash_type with
     | Some a => CoalAshType_eqb (CoalAshProduct.ash_type p) a
     | None => true
     end
  && by_city (CoalAshProduct.city p)
  && match min_quantity with
     | Some m =>
         if int_truthy m then CoalAshProduct.quantity_available p >=? m else true
     | None => true
     end
  && match max_price with
     | Some m =>
         if float_truthy m then PrimFloat.leb (CoalAshProduct.price_per_ton p) m
         else true
     | None => true
     end.

Section Catalogue.
(** [{"$regex": pattern, "$options": "i"}] as the store evaluates it:
    [None] for a pattern it rejects, else the test on the field. *)
Variable regex_i : string -> option (string -> bool).

Definition city_query (city : option string) : option (string -> bool) :=
  match city with
  | Some c => if str_truthy c then regex_i c else Some (fun _ => true)
  | None => Some (fun _ => true)
  end.

Definition get_products (ash_type : option CoalAshType) (city : option string)
           (min_quantity : option Z) (max_price : option float)
           (db : Database.t) : store_error + list CoalAshProduct.t :=
  match city_query city with
  | None => inl OperationFailure
  | Some by_city =>
      inr (Collection.to_list 1000
             (Collection.find
                (products_filter ash_type by_city min_quantity max_price)
                (Database.products db)))
  end.
End Catalogue.

Definition get_my_products (current_user : User.t) (db : Database.t)
  : exn + list CoalAshProduct.t :=
  if negb (UserRole_eqb (User.role current_user) SUPPLIER) then
    inl (HTTPException HTTP_403_FORBIDDEN "Only suppliers can view their products")
  else
    inr (Collection.to_list 1000
           (Collection.find (product_supplier_is (User.id current_user))
                            (Database.products db))).

(** ** Demand endpoints *)

Module DemandCreate.
Record t := {
  title : string;
  ash_type : CoalAshType;
  quantity_required : Z;
  max_price_per_ton : float;
  delivery_location : string;
  delivery_city : string;
  delivery_state : string;
  required_by : datetime;
  quality_requirements : dict;
  description : string
}.
End DemandCreate.

(** The [DemandRequest] validated from the request with the caller as its
    buyer; it draws an id and one date. *)
Definition new_demand (d : Defaults) (demand_data : DemandCreate.t)
           (current_user : User.t) : DemandRequest.t :=
  {| DemandRequest.id := uuid4 d;
     DemandRequest.buyer_id := User.id current_user;
     DemandRequest.title := DemandCreate.title demand_data;
     DemandRequest.ash_type := DemandCreate.ash_type demand_data;
     DemandRequest.quantity_required := DemandCreate.quantity_required demand_data;
     DemandRequest.max_price_per_ton := DemandCreate.max_price_per_ton demand_data;
     DemandRequest.delivery_location := DemandCreate.delivery_location demand_data;
     DemandRequest.delivery_city := DemandCreate.delivery_city demand_data;
     DemandRequest.delivery_state := DemandCreate.delivery_state demand_data;
     DemandRequest.required_by := DemandCreate.required_by demand_data;
     DemandRequest.quality_requirements := DemandCreate.quality_requirements demand_data;
     DemandRequest.description := DemandCreate.description demand_data;
     DemandRequest.is_active := true;
     DemandRequest.created_at := now_created d |}.

Definition with_demands (ds : list DemandRequest.t) (db : Database.t)
  : Database.t :=
  {| Database.users := Database.users db;
     Database.products := Database.products db;
     Database.demands := ds;
     Database.orders := Database.orders db |}.

Definition demands_insert_one (doc : DemandRequest.t) : handler unit :=
  fun db =>
    match Collection.insert_one doc (Database.demands db) with
    | Some demands => (inr tt, with_demands demands db)
    | None => (inl OverflowError, db)
    end.

Definition create_demand (d : Defaults) (demand_data : DemandCreate.t)
           (current_user : User.t) : handler DemandRequest.t :=
  if negb (UserRole_eqb (User.role current_user) BUYER) then
    raise (HTTPException HTTP_403_FORBIDDEN "Only buyers can create demand requests")
  else
    let demand := new_demand d demand_data current_user in
    demands_insert_one demand ;;;
    ret demand.

Definition get_demands (db : Database.t) : list DemandRequest.t :=
  Collection.to_list 1000
    (Collection.find DemandRequest.is_active (Database.demands db)).

Definition get_my_demands (current_user : User.t) (db : Database.t)
  : exn + list DemandRequest.t :=
  if negb (UserRole_eqb (User.role current_user) BUYER) then
    inl (HTTPException HTTP_403_FORBIDDEN "Only buyers can view their demands")
  else
    inr (Collection.to_list 1000
           (Collection.find (demand_buyer_is (User.id current_user))
                            (Database.demands db))).

(** ** Authentication endpoints and the admin script

    The [users] collection as these functions see it: the fields of
    [User] and the password hash beside them. *)

Module UserCreate.
Record t := {
  email : string;
  password : string;
  company : string;
  contact_person : string;
  phone : string;
  role : UserRole;
  address : string;
  city : string;
  state : string
}.
End UserCreate.

Module UserLogin.
Record t := {
  email : string;
  password : string
}.
End UserLogin.

Module UserDoc.
Record t := {
  user : User.t;
  password_hash : string
}.
End UserDoc.

(** A user document holds no integer: its two dates are cut, nothing
    else happens to it. *)
#[export] Instance encode_user : Encoded UserDoc.t :=
  fun doc =>
    Some {| UserDoc.user := user_kept (UserDoc.user doc);
            UserDoc.password_hash := UserDoc.password_hash doc |}.

Definition HTTP_401_UNAUTHORIZED := 401.

Definition ACCESS_TOKEN_EXPIRE_HOURS := 24.

(** [timedelta(hours=h)], a [datetime] counting microseconds. *)
Definition timedelta_hours (h : Z) : Z := h * 3600 * 1000000.

(** What these functions raise: an exception of the handlers, or the
    [ValueError] that bcrypt lets out. *)
Inductive auth_exn :=
| Handled (e : exn)
| ValueError.

(** The [User] validated from the registration without its password. *)
Definition new_user (d : Defaults) (user_data : UserCreate.t) : User.t :=
  {| User.id := uuid4 d;
     User.email := UserCreate.email user_data;
     User.company := UserCreate.company user_data;
     User.contact_person := UserCreate.contact_person user_data;
     User.phone := UserCreate.phone user_data;
     User.role := UserCreate.role user_data;
     User.address := UserCreate.address user_data;
     User.city := UserCreate.city user_data;
     User.state := UserCreate.state user_data;
     User.kyc_verified := false;
     User.created_at := now_created d;
     User.updated_at := now_updated d |}.

(** The filter [{"email": email}]. *)
Definition user_by_email (email : string) (u : UserDoc.t) : bool :=
  String.eqb (User.email (UserDoc.user u)) email.

Record LoginResponse := {
  access_token : string;
  token_type : string;
  user : User.t
}.

Section Authentication.
(** [bcrypt.hashpw] of a password with a salt and [bcrypt.checkpw] of a
    password against a hash, [None] when they raise; [jwt.encode] of the
    payload with subject [sub] and expiry [exp] under the server's key. *)
Variable hashpw : string -> string -> option string.
Variable checkpw : string -> string -> option bool.
Variable jwt_encode : string -> datetime -> string.

Definition register (d : Defaults) (salt : string) (user_data : UserCreate.t)
           (users : list UserDoc.t) : (auth_exn + User.t) * list UserDoc.t :=
  match Collection.find_one (user_by_email (UserCreate.email user_data)) users with
  | Some _ =>
      (inl (Handled (HTTPException HTTP_400_BAD_REQUEST "Email already registered")),
       users)
  | None =>
      match hashpw (UserCreate.password user_data) salt with
      | None => (inl ValueError, users)
      | Some hashed_password =>
          let user := new_user d user_data in
          match Collection.insert_one
                  {| UserDoc.user := user;
                     UserDoc.password_hash := hashed_password |} users with
          | Some users' => (inr user, users')
          | None => (inl (Handled OverflowError), users)
          end
      end
  end.

Definition login (now : datetime) (login_data : UserLogin.t)
           (users : list UserDoc.t) : auth_exn + LoginResponse :=
  let invalid := Handled (HTTPException HTTP_401_UNAUTHORIZED "Invalid credentials") in
  match Collection.find_one (user_by_email (UserLogin.email login_data)) users with
  | None => inl invalid
  | Some doc =>
      match checkpw (UserLogin.password login_data) (UserDoc.password_hash doc) with
      | None => inl ValueError
      | Some false => inl invalid
      | Some true =>
          inr {| access_token :=
                   jwt_encode (User.id (UserDoc.user doc))
                              (now + timedelta_hours ACCESS_TOKEN_EXPIRE_HOURS);
                 token_type := "bearer";
                 user := UserDoc.user doc |}
      end
  end.

(** [create_admin_user] of [create_admin.py]; whatever is raised on the
    way is caught and printed, leaving the collection as it was. *)
Definition create_admin_user (d : Defaults) (salt : string)
           (users : list UserDoc.t) : list UserDoc.t :=
  match Collection.find_one (user_by_email "admin@gmail.com") users with
  | Some _ => users
  | None =>
      match hashpw "admin" salt with
      | None => users
      | Some h =>
          match
          Collection.insert_one
            {| UserDoc.user :=
                 {| User.id := uuid4 d;
                    User.email := "admin@gmail.com";
                    User.company := "AshLink Administration";
                    User.contact_person := "System Administrator";
                    User.phone := "+91-9999999999";
                    User.role := ADMIN;
                    User.address := "AshLink Headquarters";
                    User.city := "Mumbai";
                    User.state := "Maharashtra";
                    User.kyc_verified := true;
                    User.created_at := now_created d;
                    User.updated_at := now_updated d |};
               UserDoc.password_hash := h |}
            users
          with
          | Some users' => users'
          | None => users
          end
      end
  end.
End Authentication.

(** ** Vocabulary of the further statements *)

(** The availability that orders for product id [pid] are checked
    against: that of the first document with the id, 0 when there is none. *)
Definition stock (pid : string) (db : Database.t) : Z :=
  match Collection.find_one (product_by_id pid) (Database.products db) with
  | Some p => CoalAshProduct.quantity_available p
  | None => 0
  end.

Definition order_product_is (pid : string) (o : Order.t) : bool :=
  String.eqb (Order.product_id o) pid.

(** The quantities of the recorded orders for product id [pid], summed. *)
Definition ordered (pid : string) (db : Database.t) : Z :=
  fold_right Z.add 0
    (map Order.quantity (filter (order_product_is pid) (Database.orders db))).

(** One request to [create_order] with what it draws. *)
Record Call := {
  call_defaults : Defaults;
  call_data : OrderCreate.t;
  call_user : User.t
}.

(** The database after a series of requests served one after the other,
    whether each succeeded or not. *)
Fixpoint place_all (calls : list Call) (db : Database.t) : Database.t :=
  match calls with
  | [] => db
  | c :: rest =>
      place_all rest
        (snd (create_order (call_defaults c) (call_data c) (call_user c) db))
  end.

Definition stock_not_negative (db : Database.t) : Prop :=
  Forall (fun p => 0 <= CoalAshProduct.quantity_available p)
         (Database.products db).

(** A database in which buyer ["b1"] already has [n] orders on the lot. *)
Definition db_with_orders (n : nat) : Database.t :=
  {| Database.users := [supplier1; buyer1; carrier1];
     Database.products := [lot 100 true];
     Database.demands := [];
     Database.orders :=
       repeat (new_order drawn (request 0) buyer1 (lot 100 true) 0%float) n |}.

Definition admin1 : User.t :=
  {| User.id := "a1"; User.email := "a1@example.com"; User.company := "Ops";
     User.contact_person := "A"; User.phone := "4"; User.role := ADMIN;
     User.address := "a"; User.city := "c"; User.state := "st";
     User.kyc_verified := true; User.created_at := 0; User.updated_at := 0 |}.

Definition listing (available : Z) : ProductCreate.t :=
  {| ProductCreate.title := "Pond ash"; ProductCreate.ash_type := POND_ASH;
     ProductCreate.quantity_available := available;
     ProductCreate.price_per_ton := 20%float;
     ProductCreate.location := "pond"; ProductCreate.city := "c";
     ProductCreate.state := "st"; ProductCreate.quality_specs := [];
     ProductCreate.test_report_url := None;
     ProductCreate.description := "" |}.

(** A pattern test for the examples: every pattern is accepted and
    matches a city equal to it. *)
Definition exact_city (pattern : string) : option (string -> bool) :=
  Some (String.eqb pattern).

Definition wanted (required : Z) : DemandCreate.t :=
  {| DemandCreate.title := "Need fly ash"; DemandCreate.ash_type := FLY_ASH;
     DemandCreate.quantity_required := required;
     DemandCreate.max_price_per_ton := 60%float;
     DemandCreate.delivery_location := "site";
     DemandCreate.delivery_city := "c"; DemandCreate.delivery_state := "st";
     DemandCreate.required_by := 10; DemandCreate.quality_requirements := [];
     DemandCreate.description := "" |}.

(** The anchors a buyer's and a supplier's suggestions are computed for. *)
Definition own_demands (b : User.t) (db : Database.t) : list DemandRequest.t :=
  Collection.to_list 1000
    (Collection.find
       (fun d => demand_buyer_is (User.id b) d && DemandRequest.is_active d)
       (Database.demands db)).

Definition own_products (s : User.t) (db : Database.t) : list CoalAshProduct.t :=
  Collection.to_list 1000
    (Collection.find
       (fun p => product_supplier_is (User.id s) p && CoalAshProduct.is_active p)
       (Database.products db)).

(** The orders a caller's dashboard is about. *)
Definition dashboard_scope (current_user : User.t) (o : Order.t) : bool :=
  match User.role current_user with
  | ADMIN => true
  | SUPPLIER => order_supplier_is (User.id current_user) o
  | BUYER => order_buyer_is (User.id current_user) o
  | LOGISTICS => false
  end.

(** The fields of a dashboard: its recent orders, its count of orders,
    and its other counts. *)
Definition dashboard_recent (dash : Dashboard) : list Order.t :=
  match dash with
  | AdminDashboard _ _ _ _ r => r
  | SupplierDashboard _ _ _ r => r
  | BuyerDashboard _ _ _ r => r
  end.

Definition dashboard_orders (dash : Dashboard) : nat :=
  match dash with
  | AdminDashboard _ _ total_orders _ _ => total_orders
  | SupplierDashboard _ my_orders _ _ => my_orders
  | BuyerDashboard _ my_orders _ _ => my_orders
  end.

Definition dashboard_other_counts (dash : Dashboard) : list nat :=
  match dash with
  | AdminDashboard total_users total_products _ total_demands _ =>
      [total_users; total_products; total_demands]
  | SupplierDashboard my_products _ _ _ => [my_products]
  | BuyerDashboard my_demands _ _ _ => [my_demands]
  end.

(** [a] was created no earlier than [b]. *)
Definition not_before (a b : Order.t) : Prop :=
  Order.created_at b <= Order.created_at a.

(** Three orders of buyer ["b1"] created at times 1, 3 and 2. *)
Definition order_at (t : datetime) : Order.t :=
  new_order {| uuid4 := "o"; now_created := t; now_updated := t |}
            (request 1) buyer1 (lot 100 true) 50%float.

Definition db_three_orders : Database.t :=
  {| Database.users := [supplier1; buyer1; carrier1; admin1];
     Database.products := [lot 97 true];
     Database.demands := [];
     Database.orders := [order_at 1; order_at 3; order_at 2] |}.

(** Stand-ins for the libraries in the examples: the hash of a password
    is the password itself and the token is its subject. *)
Definition plain_hashpw (password salt : string) : option string :=
  Some password.

Definition plain_checkpw (password hashed : string) : option bool :=
  Some (String.eqb password hashed).

Definition plain_jwt (sub : string) (exp : datetime) : string := sub.

Definition signup (email password : string) (role : UserRole) : UserCreate.t :=
  {| UserCreate.email := email; UserCreate.password := password;
     UserCreate.company := "Cement"; UserCreate.contact_person := "B";
     UserCreate.phone := "2"; UserCreate.role := role;
     UserCreate.address := "a"; UserCreate.city := "c";
     UserCreate.state := "st" |}.

Definition emails (users : list UserDoc.t) : list string :=
  map (fun doc => User.email (UserDoc.user doc)) users.

(** ** The store *)

Section CollectionFacts.
Context {A : Type}.
Variable q : A -> bool.
Variable upd : A -> A.

Lemma find_one_split (c : list A) (doc : A) :
  Collection.find_one q c = Some doc ->
  exists before after,
    c = before ++ doc :: after
    /\ q doc = true
    /\ Forall (fun x => q x = false) before.
Proof.
  unfold Collection.find_one.
  induction c as [|x rest IH]; simpl; [discriminate|].
  destruct (q x) eqn:Hx; intros H.
  - inversion H; subst. exists [], rest. auto.
  - destruct (IH H) as (before & after & -> & Hd & Hb).
    exists (x :: before), after. auto.
Qed.

Lemma update_one_split (before after : list A) (doc : A) :
  q doc = true ->
  Forall (fun x => q x = false) before ->
  Collection.update_one q upd (before ++ doc :: after)
  = before ++ upd doc :: after.
Proof.
  intros Hd Hb. induction Hb as [|x l Hx _ IH]; simpl.
  - now rewrite Hd.
  - now rewrite Hx, IH.
Qed.

Lemma find_one_at (before after : list A) (doc : A) :
  q doc = true ->
  Forall (fun x => q x = false) before ->
  Collection.find_one q (before ++ doc :: after) = Some doc.
Proof.
  unfold Collection.find_one.
  intros Hd Hb. induction Hb as [|x l Hx _ IH]; simpl.
  - now rewrite Hd.
  - now rewrite Hx.
Qed.
End CollectionFacts.

Lemma inc_keeps_fields (n : Z) (p : CoalAshProduct.t) :
  same_but_quantity p (CoalAshProduct.inc_quantity_available n p).
Proof. repeat split. Qed.

(** ** [create_order], branch by branch *)

Lemma role_test (u : User.t) :
  negb (UserRole_eqb (User.role u) BUYER) = false <-> User.role u = BUYER.
Proof. destruct (User.role u); simpl; split; congruence. Qed.

Lemma int64_spec z : int64 z = true <-> - 2 ^ 63 <= z <= 2 ^ 63 - 1.
Proof.
  unfold int64, INT64_MIN, INT64_MAX.
  rewrite andb_true_iff, !Z.leb_le. reflexivity.
Qed.

Lemma add_overflows_spec a b :
  add_overflows a b = true <->
  (0 < b /\ 2 ^ 63 - 1 - b < a) \/ (b < 0 /\ a < - 2 ^ 63 - b).
Proof.
  unfold add_overflows, INT64_MIN, INT64_MAX.
  rewrite orb_true_iff, !andb_true_iff, !Z.ltb_lt. reflexivity.
Qed.

(** Within the range, the check on the addition is the check on its
    result. *)
Lemma add_overflows_int64 a b :
  int64 a = true -> int64 b = true ->
  add_overflows a b = negb (int64 (a + b)).
Proof.
  intros Ha Hb. apply int64_spec in Ha. apply int64_spec in Hb.
  destruct (add_overflows a b) eqn:Ho, (int64 (a + b)) eqn:Hs;
    try reflexivity; exfalso.
  - apply add_overflows_spec in Ho. apply int64_spec in Hs. lia.
  - assert (Hno : ~ (add_overflows a b = true)) by congruence.
    assert (Hout : ~ (int64 (a + b) = true)) by congruence.
    rewrite add_overflows_spec in Hno. rewrite int64_spec in Hout. lia.
Qed.

Lemma create_order_buyer d od u db p :
  User.role u = BUYER ->
  referenced od db = Some p ->
  create_order d od u db =
  if CoalAshProduct.quantity_available p <? OrderCreate.quantity od then
    (inl (HTTPException 400 "Insufficient quantity available"), db)
  else
    match float_mul_int (CoalAshProduct.price_per_ton p) (OrderCreate.quantity od) with
    | None => (inl OverflowError, db)
    | Some total =>
        if negb (int64 (OrderCreate.quantity od)) then (inl OverflowError, db)
        else if negb (int64 (- OrderCreate.quantity od)) then
          (inl OverflowError, recorded d od u p total db)
        else if add_overflows (CoalAshProduct.quantity_available p)
                              (- OrderCreate.quantity od) then
          (inl WriteError, recorded d od u p total db)
        else (inr (new_order d od u p total), settled d od u p total db)
    end.
Proof.
  unfold referenced, create_order. intros Hrole Hfind.
  rewrite Hrole. simpl.
  unfold bind at 1. unfold products_find_one. rewrite Hfind.
  destruct (_ <? _); [reflexivity|].
  unfold bind at 1.
  destruct (float_mul_int _ _) as [total|]; [|reflexivity].
  cbn [py ret].
  unfold bind at 1. unfold orders_insert_one, Collection.insert_one.
  unfold encode, encode_order. cbn [new_order Order.quantity].
  destruct (int64 (OrderCreate.quantity od)); [|reflexivity].
  cbn [negb].
  unfold bind at 1. unfold products_update_one.
  destruct (int64 (- OrderCreate.quantity od)); [|reflexivity].
  cbn [negb Database.products Database.with_orders].
  rewrite Hfind.
  destruct (add_overflows _ _); reflexivity.
Qed.

Lemma create_order_ok d od u db o db' :
  create_order d od u db = (inr o, db') ->
  User.role u = BUYER
  /\ exists p total,
      referenced od db = Some p
      /\ OrderCreate.quantity od <= CoalAshProduct.quantity_available p
      /\ float_mul_int (CoalAshProduct.price_per_ton p) (OrderCreate.quantity od)
         = Some total
      /\ o = new_order d od u p total
      /\ db' = settled d od u p total db.
Proof.
  intros H.
  destruct (negb (UserRole_eqb (User.role u) BUYER)) eqn:Hrole.
  - unfold create_order in H. rewrite Hrole in H. discriminate.
  - apply role_test in Hrole. split; [assumption|].
    destruct (referenced od db) as [p|] eqn:Hfind.
    + rewrite (create_order_buyer d od u db p Hrole Hfind) in H.
      destruct (_ <? _) eqn:Hq; [discriminate|].
      destruct (float_mul_int _ _) as [total|] eqn:Ht; [|discriminate].
      destruct (negb (int64 _)); [discriminate|].
      destruct (negb (int64 _)); [discriminate|].
      destruct (add_overflows _ _); [discriminate|].
      inversion H; subst. exists p, total.
      apply Z.ltb_ge in Hq. auto.
    + unfold create_order in H. rewrite Hrole in H.
      unfold referenced in Hfind. simpl in H.
      unfold bind, products_find_one in H. rewrite Hfind in H. discriminate.
Qed.

(** What the store accepted when a call succeeded. *)
Lemma create_order_ok_range d od u db o db' p :
  create_order d od u db = (inr o, db') ->
  referenced od db = Some p ->
  int64 (OrderCreate.quantity od) = true
  /\ int64 (- OrderCreate.quantity od) = true
  /\ add_overflows (CoalAshProduct.quantity_available p)
                   (- OrderCreate.quantity od) = false.
Proof.
  intros H Hfind.
  destruct (create_order_ok _ _ _ _ _ _ H) as (Hrole & _).
  rewrite (create_order_buyer d od u db p Hrole Hfind) in H.
  destruct (_ <? _); [discriminate|].
  destruct (float_mul_int _ _); [|discriminate].
  destruct (int64 (OrderCreate.quantity od)); [|discriminate].
  destruct (int64 (- OrderCreate.quantity od)); [|discriminate].
  destruct (add_overflows _ _); [discriminate|]. auto.
Qed.

(** A call that raises leaves the database as it was, unless it is the
    store that refused the increment: then the order is already recorded,
    which happens for negative quantities only. *)
Lemma create_order_raises d od u db e db' :
  create_order d od u db = (inl e, db') ->
  db' = db
  \/ (OrderCreate.quantity od < 0
      /\ exists p total,
          referenced od db = Some p
          /\ db' = recorded d od u p total db).
Proof.
  intros H.
  destruct (negb (UserRole_eqb (User.role u) BUYER)) eqn:Hrole.
  - unfold create_order in H. rewrite Hrole in H. left. now inversion H.
  - apply role_test in Hrole.
    destruct (referenced od db) as [p|] eqn:Hfind.
    + rewrite (create_order_buyer d od u db p Hrole Hfind) in H.
      destruct (_ <? _) eqn:Hq; [left; now inversion H|].
      apply Z.ltb_ge in Hq.
      destruct (float_mul_int _ _) as [total|]; [|left; now inversion H].
      destruct (int64 (OrderCreate.quantity od)) eqn:Hin;
        [|left; now inversion H].
      apply int64_spec in Hin. cbn [negb] in H.
      destruct (int64 (- OrderCreate.quantity od)) eqn:Hneg; cbn [negb] in H.
      * destruct (add_overflows _ _) eqn:Hover; [|discriminate].
        apply add_overflows_spec in Hover.
        right. split; [lia|]. exists p, total. split; [reflexivity|].
        now inversion H.
      * assert (Hout : ~ (int64 (- OrderCreate.quantity od) = true))
          by congruence.
        rewrite int64_spec in Hout.
        right. split; [lia|]. exists p, total. split; [reflexivity|].
        now inversion H.
    + unfold create_order in H. rewrite Hrole in H.
      unfold referenced in Hfind. simpl in H.
      unfold bind, products_find_one in H. rewrite Hfind in H.
      left. now inversion H.
Qed.

(** The product document that a settled order was served from. *)
Lemma referenced_settled d od u p total db :
  referenced od db = Some p ->
  referenced od (settled d od u p total db)
  = Some (CoalAshProduct.inc_quantity_available (- OrderCreate.quantity od) p).
Proof.
  intros Hfind.
  destruct (find_one_split _ _ _ Hfind) as (before & after & Hsplit & Hp & Hbefore).
  unfold referenced, settled. cbn [Database.products Database.with_products].
  rewrite Hsplit, update_one_split by assumption.
  apply find_one_at; assumption.
Qed.

Lemma insert_last_perm {A} (c : list A) (x : A) :
  Permutation (c ++ [x]) (x :: c).
Proof. symmetry. apply Permutation_cons_append. Qed.

(** ** Converting a 64-bit integer to [float] never overflows *)

Lemma digits2_pos_le p k : Zpos p < 2 ^ k -> Zpos (digits2_pos p) <= k.
Proof.
  revert k. induction p as [p IH|p IH|]; intros k Hk; simpl.
  - assert (0 < k) by (destruct k; simpl in *; lia).
    replace k with (Z.succ (k - 1)) in Hk by lia.
    rewrite Z.pow_succ_r in Hk by lia.
    specialize (IH (k - 1)). lia.
  - assert (0 < k) by (destruct k; simpl in *; lia).
    replace k with (Z.succ (k - 1)) in Hk by lia.
    rewrite Z.pow_succ_r in Hk by lia.
    specialize (IH (k - 1)). lia.
  - destruct k; simpl in *; lia.
Qed.

Lemma digits2_pos_gt p : Zpos p < 2 ^ Zpos (digits2_pos p).
Proof.
  induction p as [p IH|p IH|]; simpl digits2_pos.
  - rewrite Pos2Z.inj_succ, Z.pow_succ_r by lia. lia.
  - rewrite Pos2Z.inj_succ, Z.pow_succ_r by lia. lia.
  - reflexivity.
Qed.

Lemma Zdigits2_le m k : 0 <= m < 2 ^ k -> 0 <= k -> Zdigits2 m <= k.
Proof.
  destruct m as [|p|p]; simpl; intros [H0 Hk] Hk0; try lia.
  now apply digits2_pos_le.
Qed.

Lemma shr_1_bound mrs :
  0 <= shr_m mrs -> 0 <= shr_m (shr_1 mrs) <= shr_m mrs.
Proof.
  destruct mrs as [m r s]. simpl.
  destruct m as [|[p|p|]|[p|p|]]; simpl; lia.
Qed.

Lemma iter_pos_bound n mrs :
  0 <= shr_m mrs -> 0 <= shr_m (iter_pos shr_1 n mrs) <= shr_m mrs.
Proof.
  revert mrs. induction n as [n IH|n IH|]; intros mrs H; simpl.
  - pose proof (shr_1_bound mrs H) as H1.
    pose proof (IH _ (proj1 H1)) as H2.
    pose proof (IH _ (proj1 H2)) as H3. lia.
  - pose proof (IH _ H) as H2.
    pose proof (IH _ (proj1 H2)) as H3. lia.
  - now apply shr_1_bound.
Qed.

Lemma shr_fexp_bound m e l :
  0 <= m ->
  let '(mrs, e') := shr_fexp prec emax m e l in
  0 <= shr_m mrs <= m
  /\ (e' = e \/ e' = fexp prec emax (Zdigits2 m + e)).
Proof.
  intros Hm. unfold shr_fexp, shr.
  assert (Hrec : shr_m (shr_record_of_loc m l) = m)
    by (destruct l as [|[]]; reflexivity).
  destruct (fexp prec emax (Zdigits2 m + e) - e) as [|n|n] eqn:Hn.
  - rewrite Hrec. split; [lia|]. now left.
  - pose proof (iter_pos_bound n (shr_record_of_loc m l)) as Hb.
    rewrite Hrec in Hb. split; [now apply Hb|]. right. lia.
  - rewrite Hrec. split; [lia|]. now left.
Qed.

Lemma round_nearest_even_bound m l :
  0 <= m -> m <= round_nearest_even m l <= m + 1.
Proof.
  intros Hm. unfold round_nearest_even.
  destruct l as [|[]]; try lia. destruct (Z.even m); lia.
Qed.

Lemma binary_round_aux_finite sx mx ex lx :
  0 <= mx < 2 ^ 200 -> ex <= 100 ->
  forall s, binary_round_aux prec emax sx mx ex lx <> S754_infinity s.
Proof.
  intros [Hm0 Hm] He s. unfold binary_round_aux.
  pose proof (shr_fexp_bound mx ex lx Hm0) as H1.
  destruct (shr_fexp prec emax mx ex lx) as [mrs' e'].
  destruct H1 as [Hm' He'].
  assert (Hd : Zdigits2 mx <= 200) by (apply Zdigits2_le; lia).
  assert (He'b : e' <= 247).
  { unfold fexp, emin, prec, emax in He'. lia. }
  set (m2 := round_nearest_even (shr_m mrs') (loc_of_shr_record mrs')).
  pose proof (round_nearest_even_bound (shr_m mrs') (loc_of_shr_record mrs')
                (proj1 Hm')) as Hm2. fold m2 in Hm2.
  assert (Hm2pos : 0 <= m2) by lia.
  pose proof (shr_fexp_bound m2 e' loc_Exact Hm2pos) as H2.
  destruct (shr_fexp prec emax m2 e' loc_Exact) as [mrs'' e''].
  destruct H2 as [_ He''].
  assert (Hd2 : Zdigits2 m2 <= 201).
  { apply Zdigits2_le; [|lia]. split; [lia|].
    change (2 ^ 201) with (2 * 2 ^ 200). lia. }
  assert (He''b : e'' <= 971).
  { unfold fexp, emin, prec, emax in He''. lia. }
  destruct (shr_m mrs''); try discriminate.
  replace (e'' <=? emax - prec) with true; [discriminate|].
  symmetry. apply Z.leb_le. unfold emax, prec. lia.
Qed.

Lemma iter_xO_digits m d :
  Zpos (digits2_pos (Pos.iter xO m d)) = Zpos (digits2_pos m) + Zpos d.
Proof.
  rewrite <- (Pos2Z.inj_add).
  f_equal.
  induction d using Pos.peano_ind.
  - simpl. lia.
  - rewrite Pos.iter_succ. simpl. lia.
Qed.

Lemma binary_round_finite sx m :
  Zpos m < 2 ^ 64 ->
  forall s, binary_round prec emax sx m 0 <> S754_infinity s.
Proof.
  intros Hm s. unfold binary_round, shl_align.
  pose proof (digits2_pos_le m 64 Hm) as Hd.
  destruct (fexp prec emax (Zpos (digits2_pos m) + 0) - 0) as [|d|d] eqn:Hf.
  - apply binary_round_aux_finite; [|lia]. split; [lia|].
    eapply Z.lt_trans; [exact Hm|]. apply Z.pow_lt_mono_r; lia.
  - apply binary_round_aux_finite; [|lia]. split; [lia|].
    eapply Z.lt_trans; [exact Hm|]. apply Z.pow_lt_mono_r; lia.
  - apply binary_round_aux_finite.
    + split; [lia|].
      eapply Z.lt_le_trans; [apply digits2_pos_gt|].
      rewrite iter_xO_digits.
      apply Z.pow_le_mono_r; [lia|].
      unfold fexp, emin, prec, emax in Hf. lia.
    + unfold fexp, emin, prec, emax in *. lia.
Qed.

Lemma float_of_int_finite z :
  - 2 ^ 64 < z < 2 ^ 64 -> float_of_int z <> None.
Proof.
  intros Hz. unfold float_of_int.
  destruct (binary_normalize prec emax z 0 false) as [| s | |] eqn:Hn;
    try discriminate.
  exfalso. unfold binary_normalize in Hn.
  destruct z as [|m|m]; try discriminate.
  - apply (binary_round_finite false m) in Hn; [assumption|lia].
  - apply (binary_round_finite true m) in Hn; [assumption|lia].
Qed.

Lemma float_of_int_int64 z :
  int64 z = true -> exists x, float_of_int z = Some x.
Proof.
  intros Hz. apply int64_spec in Hz.
  destruct (float_of_int z) as [x|] eqn:Hx; [now exists x|].
  exfalso. revert Hx. apply float_of_int_finite.
  change (2 ^ 64) with (2 * 2 ^ 63). lia.
Qed.

(** ** A running binary64 sum of whole numbers is exact *)



















(** ** Properties of order creation *)

(** C1: a buyer's order for more than the referenced product has available
    is refused with 400 "Insufficient quantity available", and the database
    is left as it was: the product document keeps its quantity and no
    order is recorded. *)
Theorem create_order_insufficient_inventory d od u db p :
  User.role u = BUYER ->
  referenced od db = Some p ->
  OrderCreate.quantity od > CoalAshProduct.quantity_available p ->
  create_order d od u db =
  (inl (HTTPException HTTP_400_BAD_REQUEST "Insufficient quantity available"), db).
Proof.
  intros Hrole Hfind Hq.
  rewrite (create_order_buyer d od u db p Hrole Hfind).
  replace (_ <? _) with true; [reflexivity|].
  symmetry. apply Z.ltb_lt. lia.
Qed.

Lemma create_order_insufficient_inventory_witness :
  create_order drawn (request 150) buyer1 (db_with (lot 100 true) []) =
  (inl (HTTPException 400 "Insufficient quantity available"),
   db_with (lot 100 true) []).
Proof.
  apply (create_order_insufficient_inventory
           drawn (request 150) buyer1 (db_with (lot 100 true) []) (lot 100 true)).
  - reflexivity.
  - reflexivity.
  - simpl. lia.
Defined.

(** C2: [create_order] looks its product up by [id] alone and never reads
    [is_active], which the catalogue, the matching and the admin count
    all filter on: for a product of 100 t that is not active, so that the
    listed preconditions fail, the order of 30 t is created all the same
    and the product is left with 70 t. *)
Lemma create_order_inactive_product_accepted :
  ~ listed_preconditions (request 30) buyer1 (db_with (lot 100 false) [])
  /\ exists o db',
      create_order drawn (request 30) buyer1 (db_with (lot 100 false) [])
      = (inr o, db')
      /\ Database.orders db' = [o]
      /\ Database.products db' = [lot 70 false].
Proof.
  split.
  - intros (_ & p & Hfind & Hactive & _).
    vm_compute in Hfind. inversion Hfind; subst. discriminate.
  - exists (new_order drawn (request 30) buyer1 (lot 100 false) 1500%float).
    exists (settled drawn (request 30) buyer1 (lot 100 false) 1500%float
                    (db_with (lot 100 false) [])).
    repeat split; vm_compute; reflexivity.
Qed.

(** The three preconditions the handler does test: [create_order]
    succeeds only when the caller is a buyer, the referenced product
    exists and the quantity is at most its [quantity_available]; a call
    that violates one of these raises and leaves the database as it was,
    so no order is created. *)
Lemma create_order_enforces d od u db :
  (forall o db', create_order d od u db = (inr o, db') ->
                 enforced_preconditions od u db)
  /\ (~ enforced_preconditions od u db ->
      exists e, create_order d od u db = (inl e, db)).
Proof.
  assert (Hok : forall o db', create_order d od u db = (inr o, db') ->
                              enforced_preconditions od u db).
  { intros o db' H.
    destruct (create_order_ok _ _ _ _ _ _ H) as (Hrole & p & total & Hfind & Hq & _).
    split; [assumption|]. exists p. auto. }
  split; [exact Hok|].
  intros Hno.
  destruct (negb (UserRole_eqb (User.role u) BUYER)) eqn:Hrole.
  - unfold create_order. rewrite Hrole. eexists. reflexivity.
  - apply role_test in Hrole.
    destruct (referenced od db) as [p|] eqn:Hfind.
    + rewrite (create_order_buyer d od u db p Hrole Hfind).
      destruct (_ <? _) eqn:Hq; [eexists; reflexivity|].
      apply Z.ltb_ge in Hq.
      exfalso. apply Hno. split; [assumption|]. exists p. auto.
    + unfold create_order. rewrite Hrole.
      unfold referenced in Hfind. simpl.
      unfold bind, products_find_one. rewrite Hfind. eexists. reflexivity.
Qed.

Lemma create_order_enforces_witness :
  ~ enforced_preconditions (request 30) supplier1 (db_with (lot 100 true) [])
  /\ exists e,
      create_order drawn (request 30) supplier1 (db_with (lot 100 true) [])
      = (inl e, db_with (lot 100 true) []).
Proof.
  assert (H : ~ enforced_preconditions (request 30) supplier1
                (db_with (lot 100 true) [])).
  { intros [Hrole _]. discriminate Hrole. }
  split; [exact H|].
  exact (proj2 (create_order_enforces
                  drawn (request 30) supplier1 (db_with (lot 100 true) [])) H).
Defined.

(** C3: the order a successful call creates is [PENDING], carries the
    requested quantity, snapshots the product's [price_per_ton] as its
    [agreed_price_per_ton], and its [total_amount] is that price times the
    quantity. *)
Theorem create_order_snapshot d od u db o db' :
  create_order d od u db = (inr o, db') ->
  Order.status o = PENDING
  /\ Order.quantity o = OrderCreate.quantity od
  /\ (exists p, referenced od db = Some p
                /\ Order.agreed_price_per_ton o = CoalAshProduct.price_per_ton p)
  /\ float_mul_int (Order.agreed_price_per_ton o) (Order.quantity o)
     = Some (Order.total_amount o).
Proof.
  intros H.
  destruct (create_order_ok _ _ _ _ _ _ H)
    as (_ & p & total & Hfind & _ & Htotal & -> & _).
  simpl. repeat split; try assumption.
  exists p. auto.
Qed.

Lemma create_order_snapshot_witness :
  exists o,
    fst (create_order drawn (request 30) buyer1 (db_with (lot 100 true) [])) = inr o
    /\ Order.status o = PENDING
    /\ Order.agreed_price_per_ton o = 50%float
    /\ Order.total_amount o = 1500%float
    /\ float_mul_int (Order.agreed_price_per_ton o) (Order.quantity o)
       = Some (Order.total_amount o).
Proof.
  exists (new_order drawn (request 30) buyer1 (lot 100 true) 1500%float).
  split; [vm_compute; reflexivity|].
  split; [reflexivity|]. split; [reflexivity|]. split; [reflexivity|].
  refine (proj2 (proj2 (proj2
    (create_order_snapshot drawn (request 30) buyer1 (db_with (lot 100 true) [])
       _ (settled drawn (request 30) buyer1 (lot 100 true) 1500%float
                  (db_with (lot 100 true) [])) _)))).
  vm_compute; reflexivity.
Defined.

(** C4: after a successful order of quantity Q on a product document with
    availability A, that document has availability A - Q and every other
    field as before; the documents around it are untouched. *)
Theorem create_order_decrements d od u db o db' p :
  create_order d od u db = (inr o, db') ->
  referenced od db = Some p ->
  exists p' before after,
    referenced od db' = Some p'
    /\ CoalAshProduct.quantity_available p'
       = CoalAshProduct.quantity_available p - OrderCreate.quantity od
    /\ same_but_quantity p p'
    /\ Database.products db = before ++ p :: after
    /\ Database.products db' = before ++ p' :: after.
Proof.
  intros H Hfind.
  destruct (create_order_ok _ _ _ _ _ _ H)
    as (_ & p0 & total & Hfind0 & _ & _ & _ & ->).
  rewrite Hfind in Hfind0. inversion Hfind0; subst p0. clear Hfind0.
  destruct (find_one_split _ _ _ Hfind) as (before & after & Hsplit & Hp & Hbefore).
  exists (CoalAshProduct.inc_quantity_available (- OrderCreate.quantity od) p),
         before, after.
  assert (Hafter :
            Database.products (settled d od u p total db)
            = before ++ CoalAshProduct.inc_quantity_available
                          (- OrderCreate.quantity od) p :: after).
  { unfold settled. simpl. rewrite Hsplit.
    now apply update_one_split. }
  split; [|split; [|split; [|split]]].
  - unfold referenced. rewrite Hafter. apply find_one_at; assumption.
  - simpl. lia.
  - apply inc_keeps_fields.
  - assumption.
  - assumption.
Qed.

Lemma create_order_decrements_witness :
  exists p' before after,
    referenced (request 30)
               (settled drawn (request 30) buyer1 (lot 100 true) 1500%float
                        (db_with (lot 100 true) [])) = Some p'
    /\ CoalAshProduct.quantity_available p' = 100 - 30
    /\ same_but_quantity (lot 100 true) p'
    /\ [lot 100 true] = before ++ lot 100 true :: after
    /\ [lot 70 true] = before ++ p' :: after.
Proof.
  apply (create_order_decrements
           drawn (request 30) buyer1 (db_with (lot 100 true) [])
           (new_order drawn (request 30) buyer1 (lot 100 true) 1500%float)
           (settled drawn (request 30) buyer1 (lot 100 true) 1500%float
                    (db_with (lot 100 true) []))
           (lot 100 true)).
  - vm_compute; reflexivity.
  - reflexivity.
Defined.

(** C6, as stated, fails: with nothing left, an order of quantity 0 is
    accepted and recorded. *)
Lemma create_order_sold_out_accepts_zero :
  CoalAshProduct.quantity_available (lot 0 true) = 0
  /\ exists o db',
      create_order drawn (request 0) buyer1 (db_with (lot 0 true) [])
      = (inr o, db')
      /\ Database.orders db' = [o].
Proof.
  split; [reflexivity|].
  exists (new_order drawn (request 0) buyer1 (lot 0 true) 0%float).
  exists (settled drawn (request 0) buyer1 (lot 0 true) 0%float
                  (db_with (lot 0 true) [])).
  split; vm_compute; reflexivity.
Qed.

(** C6, amended: once the referenced product's [quantity_available] is 0,
    every call for a positive quantity is refused (400 for a buyer, 403 for
    anyone else) and the database is left as it was, so no order is
    created. *)
Theorem create_order_sold_out d od u db p :
  referenced od db = Some p ->
  CoalAshProduct.quantity_available p = 0 ->
  0 < OrderCreate.quantity od ->
  create_order d od u db =
  (inl (if UserRole_eqb (User.role u) BUYER
        then HTTPException 400 "Insufficient quantity available"
        else HTTPException 403 "Only buyers can create orders"), db).
Proof.
  intros Hfind Hzero Hq.
  destruct (UserRole_eqb (User.role u) BUYER) eqn:Hrole.
  - assert (Hb : User.role u = BUYER).
    { apply role_test. now rewrite Hrole. }
    rewrite (create_order_buyer d od u db p Hb Hfind).
    replace (_ <? _) with true; [reflexivity|].
    symmetry. apply Z.ltb_lt. lia.
  - unfold create_order. now rewrite Hrole.
Qed.

Lemma create_order_sold_out_witness :
  create_order drawn (request 1) buyer1 (db_with (lot 0 true) []) =
  (inl (HTTPException 400 "Insufficient quantity available"),
   db_with (lot 0 true) []).
Proof.
  apply (create_order_sold_out
           drawn (request 1) buyer1 (db_with (lot 0 true) []) (lot 0 true)).
  - reflexivity.
  - reflexivity.
  - simpl. lia.
Defined.

(** C9, as stated, fails: a quantity below the store's 64-bit integers
    passes the inventory check, but the driver cannot encode the order:
    [insert_one] raises and no order is created. *)
Lemma create_order_below_int64_raises :
  User.role buyer1 = BUYER
  /\ referenced (request (- 2 ^ 63 - 1)) (db_with (lot 0 true) [])
     = Some (lot 0 true)
  /\ - 2 ^ 63 - 1 <= 0
  /\ create_order drawn (request (- 2 ^ 63 - 1)) buyer1 (db_with (lot 0 true) [])
     = (inl OverflowError, db_with (lot 0 true) []).
Proof.
  repeat apply conj.
  - reflexivity.
  - reflexivity.
  - vm_compute. discriminate.
  - vm_compute. reflexivity.
Qed.

(** At the lowest 64-bit integer the order is recorded, but its negation
    is not a 64-bit integer: the increment is refused and the
    availability does not move. *)
Lemma create_order_int64_min_half_done :
  create_order drawn (request (- 2 ^ 63)) buyer1 (db_with (lot 0 true) [])
  = (inl OverflowError,
     recorded drawn (request (- 2 ^ 63)) buyer1 (lot 0 true)
              (-461168601842738790400)%float (db_with (lot 0 true) []))
  /\ stock "p1"
           (recorded drawn (request (- 2 ^ 63)) buyer1 (lot 0 true)
                     (-461168601842738790400)%float (db_with (lot 0 true) []))
     = 0.
Proof. split; vm_compute; reflexivity. Qed.

(** Far below, the conversion to [float] already overflows and the
    multiplication raises before anything is written. *)
Lemma create_order_huge_negative_raises :
  User.role buyer1 = BUYER
  /\ referenced (request (- 2 ^ 1024)) (db_with (lot 0 true) [])
     = Some (lot 0 true)
  /\ - 2 ^ 1024 <= 0
  /\ create_order drawn (request (- 2 ^ 1024)) buyer1 (db_with (lot 0 true) [])
     = (inl OverflowError, db_with (lot 0 true) []).
Proof.
  repeat apply conj.
  - reflexivity.
  - reflexivity.
  - vm_compute. discriminate.
  - vm_compute. reflexivity.
Qed.

(** A product document whose [quantity_available] is itself negative
    refuses a less negative quantity. *)
Lemma create_order_negative_stock_refuses :
  create_order drawn (request (-5)) buyer1 (db_with (lot (-10) true) [])
  = (inl (HTTPException 400 "Insufficient quantity available"),
     db_with (lot (-10) true) []).
Proof. vm_compute. reflexivity. Qed.

(** C9, amended: there is no lower bound on the quantity.  For a buyer and
    an existing product whose [quantity_available] is not negative, a
    quantity of 0 or less that the store's 64-bit integers can take (it is
    above -2^63, and the availability less the quantity is at most
    2^63 - 1) passes the inventory check (also when nothing is available),
    an order for it is created and stored, and the product's
    [quantity_available] grows by the quantity's absolute value. *)
Theorem create_order_no_lower_bound d od u db p :
  User.role u = BUYER ->
  referenced od db = Some p ->
  0 <= CoalAshProduct.quantity_available p ->
  OrderCreate.quantity od <= 0 ->
  INT64_MIN < OrderCreate.quantity od ->
  CoalAshProduct.quantity_available p - OrderCreate.quantity od <= INT64_MAX ->
  (CoalAshProduct.quantity_available p <? OrderCreate.quantity od) = false
  /\ exists o db' p',
      create_order d od u db = (inr o, db')
      /\ Order.quantity o = OrderCreate.quantity od
      /\ Permutation (Database.orders db') (order_kept o :: Database.orders db)
      /\ referenced od db' = Some p'
      /\ CoalAshProduct.quantity_available p'
         = CoalAshProduct.quantity_available p + Z.abs (OrderCreate.quantity od).
Proof.
  unfold INT64_MIN, INT64_MAX. intros Hrole Hfind Hstock Hq Hmin Hmax.
  assert (Hcheck : (CoalAshProduct.quantity_available p <? OrderCreate.quantity od)
                   = false) by (apply Z.ltb_ge; lia).
  split; [assumption|].
  assert (Hin : int64 (OrderCreate.quantity od) = true)
    by (apply int64_spec; lia).
  assert (Hneg : int64 (- OrderCreate.quantity od) = true)
    by (apply int64_spec; lia).
  assert (Hover : add_overflows (CoalAshProduct.quantity_available p)
                                (- OrderCreate.quantity od) = false).
  { destruct (add_overflows _ _) eqn:Ho; [|reflexivity].
    apply add_overflows_spec in Ho. lia. }
  destruct (float_of_int_int64 _ Hin) as [x Hx].
  pose proof (create_order_buyer d od u db p Hrole Hfind) as Hrun.
  rewrite Hcheck in Hrun. unfold float_mul_int in Hrun. rewrite Hx in Hrun.
  cbn [option_map] in Hrun. rewrite Hin, Hneg, Hover in Hrun. cbn [negb] in Hrun.
  eexists. eexists. eexists.
  split; [exact Hrun|].
  split; [reflexivity|].
  split; [apply insert_last_perm|].
  split; [apply referenced_settled; assumption|].
  simpl. lia.
Qed.

Lemma create_order_no_lower_bound_witness :
  exists o db' p',
    create_order drawn (request (-5)) buyer1 (db_with (lot 0 true) []) = (inr o, db')
    /\ Order.quantity o = -5
    /\ Permutation (Database.orders db') [order_kept o]
    /\ referenced (request (-5)) db' = Some p'
    /\ CoalAshProduct.quantity_available p' = 0 + Z.abs (-5).
Proof.
  refine (proj2 (create_order_no_lower_bound
                   drawn (request (-5)) buyer1 (db_with (lot 0 true) [])
                   (lot 0 true) _ _ _ _ _ _)).
  - reflexivity.
  - reflexivity.
  - simpl. lia.
  - simpl. lia.
  - vm_compute. reflexivity.
  - vm_compute. discriminate.
Defined.

(** ** Properties of matching *)

Lemma in_firstn {A} (n : nat) (l : list A) (x : A) :
  In x (firstn n l) -> In x l.
Proof.
  revert l. induction n as [|n IH]; intros [|y l]; simpl; try tauto.
  intros [H|H]; auto.
Qed.

Lemma in_to_list_find {A} (n : nat) (q : A -> bool) (c : list A) (x : A) :
  In x (Collection.to_list n (Collection.find q c)) -> In x c /\ q x = true.
Proof.
  unfold Collection.to_list, Collection.find.
  intros H. apply in_firstn in H. now apply filter_In in H.
Qed.

Lemma to_list_all {A} (n : nat) (q : A -> bool) (c : list A) :
  (Collection.count_documents q c <= n)%nat ->
  Collection.to_list n (Collection.find q c) = filter q c.
Proof. intros H. now apply firstn_all2. Qed.

Lemma in_suggest_for_demand db d0 D ps :
  In (DemandSuggestion D ps) (suggest_for_demand db d0) ->
  D = d0
  /\ ps = Collection.to_list 10
            (Collection.find (products_query d0) (Database.products db)).
Proof.
  unfold suggest_for_demand.
  destruct (Collection.to_list 10 _) as [|p l]; simpl; [tauto|].
  intros [H|[]]. inversion H; subst. auto.
Qed.

Lemma CoalAshType_eqb_sym a b : CoalAshType_eqb a b = CoalAshType_eqb b a.
Proof. destruct a, b; reflexivity. Qed.

(** The two queries test the same thing from either side, apart from
    whose [is_active] flag they read. *)
Lemma queries_agree P D :
  CoalAshProduct.is_active P = true ->
  DemandRequest.is_active D = true ->
  demands_query P D = products_query D P.
Proof.
  intros HP HD. unfold demands_query, products_query, float_geb.
  rewrite HP, HD, Z.geb_leb, (CoalAshType_eqb_sym (DemandRequest.ash_type D)).
  reflexivity.
Qed.

Lemma products_query_active D P :
  products_query D P = true -> CoalAshProduct.is_active P = true.
Proof.
  unfold products_query. intros H.
  now apply andb_true_iff in H.
Qed.

(** C5, as stated, fails: with eleven demands that the lot satisfies, the
    lot is suggested for the eleventh demand, but the supplier is shown
    the first ten demands only. *)
Lemma matching_cap_breaks_symmetry :
  CoalAshProduct.is_active (lot 100 true) = true
  /\ DemandRequest.is_active (demand_of "d11") = true
  /\ offered_for_demand buyer1 (db_with (lot 100 true) eleven_demands)
                        (demand_of "d11") (lot 100 true)
  /\ ~ offered_for_product supplier1 (db_with (lot 100 true) eleven_demands)
                           (lot 100 true) (demand_of "d11").
Proof.
  split; [reflexivity|]. split; [reflexivity|]. split.
  - exists [lot 100 true]. split.
    + vm_compute. do 10 right. left. reflexivity.
    + left. reflexivity.
  - intros (ds & Hin & HD).
    vm_compute in Hin. destruct Hin as [Hin|[]].
    inversion Hin; subst ds. clear Hin.
    vm_compute in HD.
    repeat (destruct HD as [HD|HD]; [discriminate HD|]).
    exact HD.
Qed.

(** C5, amended: matching is symmetric up to the caps.  If product P is
    suggested to a buyer for demand D, then D is suggested for P to the
    supplier who owns P, provided at most 10 demands satisfy P's query and
    the supplier has at most 1000 active products; the two queries are the
    same predicate read from either side. *)
Theorem matching_symmetric_within_caps b s db P D :
  User.role b = BUYER ->
  User.role s = SUPPLIER ->
  CoalAshProduct.supplier_id P = User.id s ->
  (Collection.count_documents (demands_query P) (Database.demands db) <= 10)%nat ->
  (Collection.count_documents
     (fun p => product_supplier_is (User.id s) p && CoalAshProduct.is_active p)
     (Database.products db) <= 1000)%nat ->
  offered_for_demand b db D P ->
  offered_for_product s db P D.
Proof.
  intros Hb Hs Hown Hten Hthousand (ps & Hin & HP).
  unfold get_matching_suggestions in Hin. rewrite Hb in Hin.
  apply in_flat_map in Hin. destruct Hin as (d0 & Hd0 & Hin).
  apply in_suggest_for_demand in Hin. destruct Hin as [-> ->].
  apply in_to_list_find in Hd0. destruct Hd0 as [HDin HD].
  apply andb_true_iff in HD. destruct HD as [_ HDactive].
  apply in_to_list_find in HP. destruct HP as [HPin HPquery].
  pose proof (products_query_active _ _ HPquery) as HPactive.
  assert (HDquery : demands_query P d0 = true)
    by (rewrite queries_agree; assumption).
  exists (filter (demands_query P) (Database.demands db)).
  assert (HDmatch : In d0 (filter (demands_query P) (Database.demands db)))
    by (apply filter_In; auto).
  split; [|exact HDmatch].
  unfold get_matching_suggestions. rewrite Hs.
  apply in_flat_map. exists P. split.
  - rewrite to_list_all by assumption.
    apply filter_In. split; [assumption|].
    unfold product_supplier_is. rewrite Hown, String.eqb_refl, HPactive.
    reflexivity.
  - unfold suggest_for_product. rewrite to_list_all by assumption.
    destruct (filter (demands_query P) (Database.demands db)) eqn:Hf.
    + destruct HDmatch.
    + left. reflexivity.
Qed.

Lemma matching_symmetric_within_caps_witness :
  offered_for_product supplier1 (db_with (lot 100 true) [demand_of "d1"])
                      (lot 100 true) (demand_of "d1").
Proof.
  apply (matching_symmetric_within_caps buyer1).
  - reflexivity.
  - reflexivity.
  - reflexivity.
  - vm_compute. lia.
  - vm_compute. lia.
  - exists [lot 100 true]. split.
    + vm_compute. left. reflexivity.
    + left. reflexivity.
Defined.

(** C7: whoever calls and whatever the store holds, every suggestion
    carries at most 10 counterparts. *)
Theorem matching_at_most_ten u db :
  Forall (fun s => (counterparts s <= 10)%nat) (get_matching_suggestions u db).
Proof.
  unfold get_matching_suggestions.
  destruct (User.role u); try constructor;
    apply Forall_flat_map, Forall_forall; intros anchor _.
  - unfold suggest_for_product.
    destruct (Collection.to_list 10 _) eqn:Hl; constructor; [|constructor].
    cbn [counterparts]. rewrite <- Hl. apply firstn_le_length.
  - unfold suggest_for_demand.
    destruct (Collection.to_list 10 _) eqn:Hl; constructor; [|constructor].
    cbn [counterparts]. rewrite <- Hl. apply firstn_le_length.
Qed.

(** The cap is reached: of eleven demands the lot satisfies, ten are
    shown to its supplier. *)
Example matching_cap_reached :
  map counterparts
      (get_matching_suggestions supplier1 (db_with (lot 100 true) eleven_demands))
  = [10%nat].
Proof. vm_compute. reflexivity. Qed.

(** ** Properties of the dashboard *)



(** C10: for a logistics caller no branch of the dashboard is taken and
    the handler returns nothing: neither a summary nor an error. *)
Theorem logistics_dashboard_none group_sum u db :
  User.role u = LOGISTICS ->
  get_dashboard_analytics group_sum u db = None.
Proof.
  intros Hrole. unfold get_dashboard_analytics. now rewrite Hrole.
Qed.

Lemma logistics_dashboard_none_witness :
  get_dashboard_analytics running_sum carrier1 db_two_orders = None.
Proof.
  apply (logistics_dashboard_none running_sum carrier1 db_two_orders).
  reflexivity.
Defined.

(** ** Further properties of order creation *)

Section UpdateElsewhere.
Context {A : Type}.
Variables f g : A -> bool.
Variable upd : A -> A.
Hypothesis upd_keeps : forall x, f (upd x) = f x.

Lemma find_one_update_other (c : list A) :
  (forall x, g x = true -> f x = false) ->
  Collection.find_one f (Collection.update_one g upd c) = Collection.find_one f c.
Proof.
  intros Hdisj. unfold Collection.find_one.
  induction c as [|x rest IH]; simpl; [reflexivity|].
  destruct (g x) eqn:Hg; simpl.
  - rewrite upd_keeps, (Hdisj x Hg). reflexivity.
  - now rewrite IH.
Qed.

Lemma count_update_one (c : list A) :
  Collection.count_documents f (Collection.update_one g upd c)
  = Collection.count_documents f c.
Proof.
  unfold Collection.count_documents.
  induction c as [|x rest IH]; simpl; [reflexivity|].
  destruct (g x); simpl.
  - rewrite upd_keeps. now destruct (f x).
  - destruct (f x); simpl; now rewrite IH.
Qed.
End UpdateElsewhere.

Lemma find_one_in {A} (f : A -> bool) (c : list A) (x : A) :
  Collection.find_one f c = Some x -> In x c /\ f x = true.
Proof. apply find_some. Qed.

Lemma sum_snoc (l : list Z) (z : Z) :
  fold_right Z.add 0 (l ++ [z]) = fold_right Z.add 0 l + z.
Proof. induction l as [|x l IH]; simpl; lia. Qed.

Lemma settled_products d od u p total db before after :
  referenced od db = Some p ->
  Database.products db = before ++ p :: after ->
  Forall (fun x => product_by_id (OrderCreate.product_id od) x = false) before ->
  Database.products (settled d od u p total db)
  = before ++ CoalAshProduct.inc_quantity_available (- OrderCreate.quantity od) p
           :: after.
Proof.
  intros Hfind Hsplit Hbefore.
  unfold settled. simpl. rewrite Hsplit.
  apply update_one_split; [|assumption].
  apply (find_one_in _ _ _ Hfind).
Qed.

(** X1: whoever is not a buyer is refused with 403 before the product is
    even looked up, so also for a product that does not exist or a
    quantity that could not be served; the database is left as it was. *)
Theorem create_order_forbidden d od u db :
  User.role u <> BUYER ->
  create_order d od u db =
  (inl (HTTPException 403 "Only buyers can create orders"), db).
Proof.
  intros Hrole. unfold create_order.
  destruct (User.role u); try reflexivity. now elim Hrole.
Qed.

Lemma create_order_forbidden_witness :
  create_order drawn (request 1000) supplier1 (db_with (lot 100 true) []) =
  (inl (HTTPException 403 "Only buyers can create orders"),
   db_with (lot 100 true) []).
Proof.
  apply (create_order_forbidden
           drawn (request 1000) supplier1 (db_with (lot 100 true) [])).
  discriminate.
Defined.

(** X2: a buyer's order for a product id that no document carries is
    refused with 404, whatever the quantity, and the database is left as
    it was. *)
Theorem create_order_not_found d od u db :
  User.role u = BUYER ->
  referenced od db = None ->
  create_order d od u db = (inl (HTTPException 404 "Product not found"), db).
Proof.
  unfold referenced, create_order. intros Hrole Hfind.
  rewrite Hrole. simpl. unfold bind, products_find_one. now rewrite Hfind.
Qed.

Lemma create_order_not_found_witness :
  create_order drawn (request 1) buyer1
               {| Database.users := []; Database.products := [];
                  Database.demands := []; Database.orders := [] |}
  = (inl (HTTPException 404 "Product not found"),
     {| Database.users := []; Database.products := [];
        Database.demands := []; Database.orders := [] |}).
Proof.
  apply (create_order_not_found drawn (request 1) buyer1).
  - reflexivity.
  - reflexivity.
Defined.

(** X3: a successful call stores exactly one more order, the one it
    returns with its two dates cut to the millisecond, and leaves users and
    demands untouched and the number of product documents unchanged; the
    order names the caller as buyer, the requested product, and the
    supplier of the product document found. *)
Theorem create_order_records d od u db o db' :
  create_order d od u db = (inr o, db') ->
  Permutation (Database.orders db') (order_kept o :: Database.orders db)
  /\ Database.users db' = Database.users db
  /\ Database.demands db' = Database.demands db
  /\ List.length (Database.products db') = List.length (Database.products db)
  /\ Order.buyer_id o = User.id u
  /\ Order.product_id o = OrderCreate.product_id od
  /\ exists p, referenced od db = Some p
               /\ Order.supplier_id o = CoalAshProduct.supplier_id p.
Proof.
  intros H.
  destruct (create_order_ok _ _ _ _ _ _ H)
    as (_ & p & total & Hfind & _ & _ & -> & ->).
  destruct (find_one_split _ _ _ Hfind) as (before & after & Hsplit & _ & Hbefore).
  split; [apply insert_last_perm|].
  rewrite (settled_products d od u p total db before after Hfind Hsplit Hbefore).
  rewrite Hsplit, !length_app. simpl.
  repeat split. exists p. auto.
Qed.

Lemma create_order_records_witness :
  let db := db_with (lot 100 true) [] in
  let o := new_order drawn (request 30) buyer1 (lot 100 true) 1500%float in
  let db' := settled drawn (request 30) buyer1 (lot 100 true) 1500%float db in
  Permutation (Database.orders db') (order_kept o :: Database.orders db)
  /\ Database.users db' = Database.users db
  /\ Database.demands db' = Database.demands db
  /\ List.length (Database.products db') = List.length (Database.products db)
  /\ Order.buyer_id o = "b1"
  /\ Order.product_id o = "p1"
  /\ exists p, referenced (request 30) db = Some p
               /\ Order.supplier_id o = CoalAshProduct.supplier_id p.
Proof.
  apply (create_order_records drawn (request 30) buyer1
                              (db_with (lot 100 true) [])).
  vm_compute. reflexivity.
Defined.

Lemma create_order_keeps_stock_not_negative d od u db :
  stock_not_negative db ->
  stock_not_negative (snd (create_order d od u db)).
Proof.
  unfold stock_not_negative. intros Hdb.
  destruct (create_order d od u db) as [[e|o] db'] eqn:H; simpl.
  - destruct (create_order_raises _ _ _ _ _ _ H)
      as [->|(_ & p & total & _ & ->)]; assumption.
  - destruct (create_order_ok _ _ _ _ _ _ H)
      as (_ & p & total & Hfind & Hq & _ & _ & ->).
    destruct (find_one_split _ _ _ Hfind) as (before & after & Hsplit & _ & Hbefore).
    rewrite (settled_products d od u p total db before after Hfind Hsplit Hbefore).
    rewrite Hsplit in Hdb.
    apply Forall_app in Hdb. destruct Hdb as [Hb Hpa].
    inversion Hpa as [|? ? Hp Ha]; subst.
    apply Forall_app. split; [assumption|].
    constructor; [simpl; lia | assumption].
Qed.

(** X4: served one after the other, requests never drive an availability
    below zero: if no product document has a negative
    [quantity_available], none has after any series of calls, whoever
    makes them and whatever they ask for. *)
Theorem place_all_keeps_stock_not_negative calls db :
  stock_not_negative db -> stock_not_negative (place_all calls db).
Proof.
  revert db. induction calls as [|c rest IH]; intros db Hdb; simpl.
  - assumption.
  - apply IH. now apply create_order_keeps_stock_not_negative.
Qed.

Lemma place_all_keeps_stock_not_negative_witness :
  stock_not_negative
    (place_all
       [ {| call_defaults := drawn; call_data := request 70; call_user := buyer1 |};
         {| call_defaults := drawn; call_data := request 40; call_user := buyer1 |};
         {| call_defaults := drawn; call_data := request 30; call_user := buyer1 |} ]
       (db_with (lot 100 true) [])).
Proof.
  apply place_all_keeps_stock_not_negative.
  repeat constructor. simpl. lia.
Defined.

Lemma stock_settled_same d od u p total db :
  referenced od db = Some p ->
  stock (OrderCreate.product_id od) (settled d od u p total db)
  = CoalAshProduct.quantity_available p - OrderCreate.quantity od.
Proof.
  intros Hfind.
  destruct (find_one_split _ _ _ Hfind) as (before & after & Hsplit & Hp & Hbefore).
  unfold stock.
  rewrite (settled_products d od u p total db before after Hfind Hsplit Hbefore).
  rewrite find_one_at; [simpl; lia | exact Hp | exact Hbefore].
Qed.

Lemma stock_settled_other d od u p total db pid :
  String.eqb (OrderCreate.product_id od) pid = false ->
  stock pid (settled d od u p total db) = stock pid db.
Proof.
  intros Hne. unfold stock, settled. simpl.
  rewrite find_one_update_other; [reflexivity|reflexivity|].
  intros x Hx. unfold product_by_id in *.
  apply String.eqb_eq in Hx. rewrite Hx. exact Hne.
Qed.

Lemma ordered_recorded d od u p total db pid :
  ordered pid (recorded d od u p total db)
  = ordered pid db
    + (if String.eqb (OrderCreate.product_id od) pid
       then OrderCreate.quantity od else 0).
Proof.
  unfold ordered, recorded. cbn [Database.orders Database.with_orders].
  rewrite filter_app. cbn [filter].
  change (order_product_is pid (order_kept (new_order d od u p total)))
    with (String.eqb (OrderCreate.product_id od) pid).
  destruct (String.eqb _ pid).
  - rewrite map_app. cbn [map]. rewrite sum_snoc. reflexivity.
  - rewrite app_nil_r. lia.
Qed.

(** One call: the total of availability and ordered quantity does not
    grow, and stays the same unless the quantity is negative. *)
Lemma create_order_conserves d od u db pid :
  let db' := snd (create_order d od u db) in
  stock pid db' + ordered pid db' <= stock pid db + ordered pid db
  /\ (0 <= OrderCreate.quantity od ->
      stock pid db' + ordered pid db' = stock pid db + ordered pid db).
Proof.
  destruct (create_order d od u db) as [[e|o] db'] eqn:H; simpl.
  - destruct (create_order_raises _ _ _ _ _ _ H)
      as [->|(Hneg & p & total & _ & ->)]; [lia|].
    rewrite ordered_recorded.
    change (stock pid (recorded d od u p total db)) with (stock pid db).
    destruct (String.eqb _ pid); lia.
  - destruct (create_order_ok _ _ _ _ _ _ H)
      as (_ & p & total & Hfind & _ & _ & -> & ->).
    change (ordered pid (settled d od u p total db))
      with (ordered pid (recorded d od u p total db)).
    rewrite ordered_recorded.
    destruct (String.eqb (OrderCreate.product_id od) pid) eqn:Hpid.
    + apply String.eqb_eq in Hpid. subst pid.
      rewrite (stock_settled_same d od u p total db Hfind).
      unfold stock. unfold referenced in Hfind. rewrite Hfind. lia.
    + rewrite (stock_settled_other d od u p total db pid Hpid). lia.
Qed.

(** X5: tonnage does not appear from nowhere.  For every product id, the
    availability of its document plus the quantities of all orders
    recorded for it never grows over a series of calls, and it is exactly
    conserved when no call asks for a negative quantity: an accepted order
    moves its quantity from the one to the other, a refused one moves
    nothing.  (An order for a negative quantity whose increment the store
    refuses stays recorded without the availability moving.) *)
Theorem place_all_conserves calls db pid :
  stock pid (place_all calls db) + ordered pid (place_all calls db)
  <= stock pid db + ordered pid db
  /\ (Forall (fun c => 0 <= OrderCreate.quantity (call_data c)) calls ->
      stock pid (place_all calls db) + ordered pid (place_all calls db)
      = stock pid db + ordered pid db).
Proof.
  revert db. induction calls as [|c rest IH]; intros db; simpl.
  - split; [lia|reflexivity].
  - pose proof (create_order_conserves
                  (call_defaults c) (call_data c) (call_user c) db pid) as [Hle Heq].
    simpl in Hle, Heq.
    destruct (IH (snd (create_order (call_defaults c) (call_data c)
                                    (call_user c) db))) as [IHle IHeq].
    split; [lia|].
    intros Hall. inversion Hall as [|? ? Hc Hrest]; subst.
    rewrite (IHeq Hrest). now apply Heq.
Qed.

Lemma place_all_conserves_witness :
  let calls :=
    [ {| call_defaults := drawn; call_data := request 70; call_user := buyer1 |};
      {| call_defaults := drawn; call_data := request 40; call_user := buyer1 |};
      {| call_defaults := drawn; call_data := request 30; call_user := buyer1 |} ] in
  stock "p1" (place_all calls (db_with (lot 100 true) []))
  + ordered "p1" (place_all calls (db_with (lot 100 true) []))
  = stock "p1" (db_with (lot 100 true) [])
    + ordered "p1" (db_with (lot 100 true) []).
Proof.
  apply (proj2 (place_all_conserves _ (db_with (lot 100 true) []) "p1")).
  repeat constructor; simpl; lia.
Defined.

Lemma stock_not_negative_stock db pid :
  stock_not_negative db -> 0 <= stock pid db.
Proof.
  unfold stock_not_negative, stock. intros Hdb.
  destruct (Collection.find_one _ _) as [p|] eqn:Hfind; [|lia].
  apply find_one_in in Hfind. destruct Hfind as [Hin _].
  rewrite Forall_forall in Hdb. now apply Hdb.
Qed.

(** X6: no overselling when requests are served one after the other.
    Starting without negative availabilities, the quantities ordered for a
    product id over any series of calls add up to no more than what was
    available for it at the start. *)
Theorem place_all_never_oversells calls db pid :
  stock_not_negative db ->
  ordered pid (place_all calls db) - ordered pid db <= stock pid db.
Proof.
  revert db. induction calls as [|c rest IH]; intros db Hdb; simpl.
  - pose proof (stock_not_negative_stock db pid Hdb). lia.
  - pose proof (create_order_keeps_stock_not_negative
                  (call_defaults c) (call_data c) (call_user c) db Hdb) as Hnext.
    pose proof (create_order_conserves
                  (call_defaults c) (call_data c) (call_user c) db pid) as [Hc _].
    simpl in Hc. specialize (IH _ Hnext). lia.
Qed.

Lemma place_all_never_oversells_witness :
  let calls :=
    [ {| call_defaults := drawn; call_data := request 70; call_user := buyer1 |};
      {| call_defaults := drawn; call_data := request 40; call_user := buyer1 |};
      {| call_defaults := drawn; call_data := request 30; call_user := buyer1 |} ] in
  ordered "p1" (place_all calls (db_with (lot 100 true) []))
  - ordered "p1" (db_with (lot 100 true) [])
  <= stock "p1" (db_with (lot 100 true) []).
Proof.
  apply place_all_never_oversells.
  repeat constructor. simpl. lia.
Defined.

(** X7: the whole availability can be ordered.  A buyer asking for
    exactly the quantity available, when that is a non-negative 64-bit
    integer, is served, and the product document is left with 0. *)
Theorem create_order_takes_all d od u db p :
  User.role u = BUYER ->
  referenced od db = Some p ->
  OrderCreate.quantity od = CoalAshProduct.quantity_available p ->
  0 <= OrderCreate.quantity od <= INT64_MAX ->
  exists o db',
    create_order d od u db = (inr o, db')
    /\ stock (OrderCreate.product_id od) db' = 0.
Proof.
  unfold INT64_MAX. intros Hrole Hfind Hq Hrange.
  assert (Hin : int64 (OrderCreate.quantity od) = true)
    by (apply int64_spec; lia).
  assert (Hneg : int64 (- OrderCreate.quantity od) = true)
    by (apply int64_spec; lia).
  assert (Hover : add_overflows (CoalAshProduct.quantity_available p)
                                (- OrderCreate.quantity od) = false).
  { destruct (add_overflows _ _) eqn:Ho; [|reflexivity].
    apply add_overflows_spec in Ho. lia. }
  destruct (float_of_int_int64 _ Hin) as [x Hx].
  pose proof (create_order_buyer d od u db p Hrole Hfind) as Hrun.
  replace (_ <? _) with false in Hrun by (symmetry; apply Z.ltb_ge; lia).
  unfold float_mul_int in Hrun. rewrite Hx in Hrun.
  cbn [option_map] in Hrun. rewrite Hin, Hneg, Hover in Hrun. cbn [negb] in Hrun.
  eexists. eexists. split; [exact Hrun|].
  rewrite (stock_settled_same _ _ _ _ _ _ Hfind). lia.
Qed.

Lemma create_order_takes_all_witness :
  exists o db',
    create_order drawn (request 100) buyer1 (db_with (lot 100 true) [])
    = (inr o, db')
    /\ stock "p1" db' = 0.
Proof.
  apply (create_order_takes_all
           drawn (request 100) buyer1 (db_with (lot 100 true) [])
           (lot 100 true)).
  - reflexivity.
  - reflexivity.
  - reflexivity.
  - vm_compute. split; discriminate.
Defined.

(** ** Properties of the order listing *)

Lemma to_list_snoc_under {A} (n : nat) (q : A -> bool) (c : list A) (x : A) :
  q x = true ->
  (Collection.count_documents q c < n)%nat ->
  Collection.to_list n (Collection.find q (c ++ [x]))
  = Collection.to_list n (Collection.find q c) ++ [x].
Proof.
  unfold Collection.to_list, Collection.find, Collection.count_documents.
  intros Hx Hn. rewrite filter_app. simpl. rewrite Hx.
  rewrite firstn_app.
  rewrite !firstn_all2; simpl; try lia. reflexivity.
Qed.

Lemma count_snoc {A} (q : A -> bool) (c : list A) (x : A) :
  Collection.count_documents q (c ++ [x])
  = (Collection.count_documents q c + if q x then 1 else 0)%nat.
Proof.
  unfold Collection.count_documents.
  rewrite filter_app, length_app. simpl. now destruct (q x).
Qed.

Lemma inr_inj {A B} (x y : B) : @inr A B x = inr y -> x = y.
Proof. congruence. Qed.

(** X8: the listing is scoped to the caller.  What a buyer is returned
    are stored orders carrying the buyer's id as [buyer_id], what a
    supplier is returned carry the supplier's id as [supplier_id], never
    more than 1000 of them; anyone else, a logistics caller and an admin
    alike, is refused with 403 "Access denied". *)
Theorem get_my_orders_scoped u db :
  (forall l,
      get_my_orders u db = inr l ->
      (List.length l <= 1000)%nat
      /\ Forall (fun o =>
                   In o (Database.orders db)
                   /\ match User.role u with
                      | BUYER => Order.buyer_id o = User.id u
                      | _ => Order.supplier_id o = User.id u
                      end) l)
  /\ (User.role u <> BUYER -> User.role u <> SUPPLIER ->
      get_my_orders u db = inl (HTTPException 403 "Access denied")).
Proof.
  unfold get_my_orders. split.
  - intros l.
    destruct (User.role u); intros H; try discriminate H;
      apply inr_inj in H; subst l;
      (split; [apply firstn_le_length|]);
      apply Forall_forall; intros o Ho;
      apply in_to_list_find in Ho; destruct Ho as [Hin Hq];
      (split; [assumption|]); now apply String.eqb_eq in Hq.
  - intros Hb Hs.
    destruct (User.role u); try reflexivity; [now elim Hs | now elim Hb].
Qed.

Lemma get_my_orders_scoped_witness :
  ((List.length (Database.orders db_two_orders) <= 1000)%nat
   /\ Forall (fun o =>
                In o (Database.orders db_two_orders)
                /\ Order.supplier_id o = "s1")
             (Database.orders db_two_orders))
  /\ get_my_orders admin1 db_two_orders
     = inl (HTTPException 403 "Access denied").
Proof.
  split.
  - apply (proj1 (get_my_orders_scoped supplier1 db_two_orders)).
    reflexivity.
  - apply (proj2 (get_my_orders_scoped admin1 db_two_orders)); discriminate.
Defined.

(** X9: an order just placed shows up in the buyer's listing, with its
    two dates cut to the millisecond, next to the orders listed before:
    provided the buyer had fewer than 1000 orders. *)
Theorem get_my_orders_after_order d od u db o db' mine :
  create_order d od u db = (inr o, db') ->
  get_my_orders u db = inr mine ->
  (Collection.count_documents (order_buyer_is (User.id u)) (Database.orders db)
   < 1000)%nat ->
  exists mine',
    get_my_orders u db' = inr mine'
    /\ Permutation mine' (order_kept o :: mine).
Proof.
  intros H Hmine Hcap.
  destruct (create_order_ok _ _ _ _ _ _ H)
    as (Hrole & p & total & _ & _ & _ & -> & ->).
  unfold get_my_orders in *. rewrite Hrole in *.
  apply inr_inj in Hmine. subst mine.
  eexists. split; [reflexivity|].
  change (Database.orders (settled d od u p total db))
    with (Database.orders db ++ [order_kept (new_order d od u p total)]).
  rewrite to_list_snoc_under; [apply insert_last_perm| |assumption].
  unfold order_buyer_is. simpl. apply String.eqb_refl.
Qed.

Lemma get_my_orders_after_order_witness :
  exists mine',
    get_my_orders buyer1
      (settled drawn (request 30) buyer1 (lot 100 true) 1500%float
               (db_with (lot 100 true) []))
    = inr mine'
    /\ Permutation mine'
         [order_kept (new_order drawn (request 30) buyer1 (lot 100 true)
                                1500%float)].
Proof.
  apply (get_my_orders_after_order
           drawn (request 30) buyer1 (db_with (lot 100 true) [])
           (new_order drawn (request 30) buyer1 (lot 100 true) 1500%float)
           _ []).
  - vm_compute. reflexivity.
  - reflexivity.
  - vm_compute. lia.
Defined.

(** X10: past the cap the listing is incomplete.  For a buyer who already
    has 1000 orders or more, a further order is stored, so that the buyer
    has over 1000, but the listing returns 1000 of them. *)
Theorem get_my_orders_after_order_capped d od u db o db' :
  create_order d od u db = (inr o, db') ->
  (1000 <= Collection.count_documents (order_buyer_is (User.id u))
                                      (Database.orders db))%nat ->
  exists shown,
    get_my_orders u db' = inr shown
    /\ List.length shown = 1000%nat
    /\ Collection.count_documents (order_buyer_is (User.id u))
                                  (Database.orders db')
       = S (Collection.count_documents (order_buyer_is (User.id u))
                                       (Database.orders db)).
Proof.
  intros H Hcap.
  destruct (create_order_ok _ _ _ _ _ _ H)
    as (Hrole & p & total & _ & _ & _ & -> & ->).
  assert (Hcount :
            Collection.count_documents (order_buyer_is (User.id u))
              (Database.orders (settled d od u p total db))
            = S (Collection.count_documents (order_buyer_is (User.id u))
                                            (Database.orders db))).
  { change (Database.orders (settled d od u p total db))
      with (Database.orders db ++ [order_kept (new_order d od u p total)]).
    rewrite count_snoc.
    change (order_buyer_is (User.id u) (order_kept (new_order d od u p total)))
      with (String.eqb (User.id u) (User.id u)).
    rewrite String.eqb_refl. lia. }
  unfold get_my_orders. rewrite Hrole.
  eexists. split; [reflexivity|]. split; [|exact Hcount].
  unfold Collection.to_list. apply firstn_length_le.
  unfold Collection.count_documents, Collection.find in *. lia.
Qed.

Lemma get_my_orders_after_order_capped_witness :
  let db' := settled drawn (request 30) buyer1 (lot 100 true) 1500%float
                     (db_with_orders 1000) in
  exists shown,
    get_my_orders buyer1 db' = inr shown
    /\ List.length shown = 1000%nat
    /\ Collection.count_documents (order_buyer_is "b1") (Database.orders db')
       = S (Collection.count_documents (order_buyer_is "b1")
                                       (Database.orders (db_with_orders 1000))).
Proof.
  apply (get_my_orders_after_order_capped
           drawn (request 30) buyer1 (db_with_orders 1000)
           (new_order drawn (request 30) buyer1 (lot 100 true) 1500%float)).
  - vm_compute. reflexivity.
  - vm_compute. lia.
Defined.

(** ** Properties of the product and demand endpoints *)

Lemma find_one_snoc {A} (q : A -> bool) (c : list A) (x : A) :
  Collection.find_one q (c ++ [x])
  = match Collection.find_one q c with
    | Some y => Some y
    | None => if q x then Some x else None
    end.
Proof.
  unfold Collection.find_one.
  induction c as [|y c IH]; simpl; [reflexivity|].
  now destruct (q y).
Qed.

Lemma supplier_test (u : User.t) :
  negb (UserRole_eqb (User.role u) SUPPLIER) = false <-> User.role u = SUPPLIER.
Proof. destruct (User.role u); simpl; split; congruence. Qed.

(** A product that was created is the request's product, by a supplier,
    and it is stored as the encoder keeps it. *)
Lemma create_product_ok d pd u db p db' :
  create_product d pd u db = (inr p, db') ->
  User.role u = SUPPLIER
  /\ p = new_product d pd u
  /\ db' = Database.with_products (Database.products db ++ [product_kept p]) db.
Proof.
  unfold create_product. intros H.
  destruct (negb _) eqn:Hrole; [discriminate|].
  apply supplier_test in Hrole.
  unfold bind, products_insert_one, Collection.insert_one in H.
  unfold encode, encode_product in H.
  destruct (_ && _); [|discriminate].
  cbn [ret] in H. injection H as <- <-. auto.
Qed.

Lemma create_demand_ok d dd u db D db' :
  create_demand d dd u db = (inr D, db') ->
  User.role u = BUYER
  /\ D = new_demand d dd u
  /\ db' = with_demands (Database.demands db ++ [demand_kept D]) db.
Proof.
  unfold create_demand. intros H.
  destruct (negb _) eqn:Hrole; [discriminate|].
  apply role_test in Hrole.
  unfold bind, demands_insert_one, Collection.insert_one in H.
  unfold encode, encode_demand in H.
  destruct (_ && _); [|discriminate].
  cbn [ret] in H. injection H as <- <-. auto.
Qed.

(** X11: a product that a supplier has created is stored once more, with
    its two dates cut to the millisecond, owned by the caller and active;
    when no stored product carried its id before, looking the id up
    afterwards, as an order does, finds it. *)
Theorem create_product_then_lookup d pd u db p db' od :
  create_product d pd u db = (inr p, db') ->
  OrderCreate.product_id od = uuid4 d ->
  referenced od db = None ->
  Permutation (Database.products db') (product_kept p :: Database.products db)
  /\ CoalAshProduct.supplier_id p = User.id u
  /\ CoalAshProduct.is_active p = true
  /\ referenced od db' = Some (product_kept p).
Proof.
  intros H Hid Hfresh.
  destruct (create_product_ok _ _ _ _ _ _ H) as (_ & -> & ->).
  split; [apply insert_last_perm|].
  split; [reflexivity|]. split; [reflexivity|].
  unfold referenced in *. cbn [Database.products Database.with_products].
  rewrite find_one_snoc, Hfresh.
  unfold product_by_id. cbn [product_kept new_product CoalAshProduct.id].
  now rewrite Hid, String.eqb_refl.
Qed.

Lemma create_product_then_lookup_witness :
  let d := {| uuid4 := "p2"; now_created := 3000; now_updated := 4000 |} in
  let p := new_product d (listing 40) supplier1 in
  let od := {| OrderCreate.product_id := "p2"; OrderCreate.quantity := 5;
               OrderCreate.delivery_address := "site";
               OrderCreate.contract_terms := None |} in
  Permutation [lot 100 true; product_kept p] (product_kept p :: [lot 100 true])
  /\ CoalAshProduct.supplier_id p = "s1"
  /\ CoalAshProduct.is_active p = true
  /\ referenced od (Database.with_products [lot 100 true; product_kept p]
                                           (db_with (lot 100 true) []))
     = Some (product_kept p).
Proof.
  exact (create_product_then_lookup
           {| uuid4 := "p2"; now_created := 3000; now_updated := 4000 |}
           (listing 40) supplier1 (db_with (lot 100 true) [])
           (new_product
              {| uuid4 := "p2"; now_created := 3000; now_updated := 4000 |}
              (listing 40) supplier1)
           (Database.with_products
              [lot 100 true;
               product_kept
                 (new_product
                    {| uuid4 := "p2"; now_created := 3000; now_updated := 4000 |}
                    (listing 40) supplier1)]
              (db_with (lot 100 true) []))
           {| OrderCreate.product_id := "p2"; OrderCreate.quantity := 5;
              OrderCreate.delivery_address := "site";
              OrderCreate.contract_terms := None |}
           eq_refl eq_refl eq_refl).
Defined.

(** X12: the two posting endpoints are guarded by role: whoever is not a
    supplier cannot create a product and whoever is not a buyer cannot
    create a demand; both are refused with 403 and the database is left
    as it was. *)
Theorem posting_guards d pd dd u db :
  (User.role u <> SUPPLIER ->
   create_product d pd u db
   = (inl (HTTPException 403 "Only suppliers can create products"), db))
  /\ (User.role u <> BUYER ->
      create_demand d dd u db
      = (inl (HTTPException 403 "Only buyers can create demand requests"), db)).
Proof.
  unfold create_product, create_demand.
  split; intros Hrole; destruct (User.role u); try reflexivity; now elim Hrole.
Qed.

Lemma posting_guards_witness :
  create_product drawn (listing 40) carrier1 (db_with (lot 100 true) [])
  = (inl (HTTPException 403 "Only suppliers can create products"),
     db_with (lot 100 true) [])
  /\ create_demand drawn (wanted 80) carrier1 (db_with (lot 100 true) [])
     = (inl (HTTPException 403 "Only buyers can create demand requests"),
        db_with (lot 100 true) []).
Proof.
  destruct (posting_guards drawn (listing 40) (wanted 80) carrier1
                           (db_with (lot 100 true) [])) as [Hp Hd].
  split; [apply Hp | apply Hd]; discriminate.
Defined.

Lemma CoalAshType_eqb_eq a b : CoalAshType_eqb a b = true -> a = b.
Proof. destruct a, b; simpl; congruence. Qed.

(** X13: the catalogue never shows an inactive product, and every product
    it shows is a stored one that meets each filter that was applied: the
    ash type, the city pattern when it is not empty, the minimum quantity
    when it is not 0, the maximum price when it is not zero.  At most 1000
    are returned. *)
Theorem get_products_sound regex_i a c mq mp db l :
  get_products regex_i a c mq mp db = inr l ->
  (List.length l <= 1000)%nat
  /\ Forall (fun p =>
               In p (Database.products db)
               /\ CoalAshProduct.is_active p = true
               /\ (forall t, a = Some t -> CoalAshProduct.ash_type p = t)
               /\ (forall pat test, c = Some pat -> pat <> "" ->
                                    regex_i pat = Some test ->
                                    test (CoalAshProduct.city p) = true)
               /\ (forall m, mq = Some m -> m <> 0 ->
                             m <= CoalAshProduct.quantity_available p)
               /\ (forall m, mp = Some m -> float_truthy m = true ->
                             PrimFloat.leb (CoalAshProduct.price_per_ton p) m = true))
            l.
Proof.
  unfold get_products.
  destruct (city_query regex_i c) as [by_city|] eqn:Hcity; [|discriminate].
  intros H. apply inr_inj in H. subst l.
  split; [apply firstn_le_length|].
  apply Forall_forall. intros p Hp.
  apply in_to_list_find in Hp. destruct Hp as [Hin Hq].
  unfold products_filter in Hq.
  repeat (apply andb_true_iff in Hq; destruct Hq as [Hq ?]).
  repeat split; try assumption.
  - intros t ->. now apply CoalAshType_eqb_eq.
  - intros pat test -> Hpat Htest. unfold city_query, str_truthy in Hcity.
    destruct (String.eqb_spec pat ""); [contradiction|]. simpl in Hcity.
    rewrite Htest in Hcity. inversion Hcity; subst. assumption.
  - intros m -> Hm. unfold int_truthy in *.
    destruct (Z.eqb_spec m 0); [contradiction|]. simpl in *.
    now apply Z.geb_le.
  - intros m -> Hm. now rewrite Hm in *.
Qed.

Lemma get_products_sound_witness :
  (List.length [lot 100 true] <= 1000)%nat
  /\ Forall (fun p =>
               In p [lot 100 true; lot 5 false]
               /\ CoalAshProduct.is_active p = true
               /\ (forall t, Some FLY_ASH = Some t -> CoalAshProduct.ash_type p = t)
               /\ (forall pat test, Some "c" = Some pat -> pat <> "" ->
                                    exact_city pat = Some test ->
                                    test (CoalAshProduct.city p) = true)
               /\ (forall m, Some 50 = Some m -> m <> 0 ->
                             m <= CoalAshProduct.quantity_available p)
               /\ (forall m, Some 55%float = Some m -> float_truthy m = true ->
                             PrimFloat.leb (CoalAshProduct.price_per_ton p) m = true))
            [lot 100 true].
Proof.
  apply (get_products_sound
           exact_city (Some FLY_ASH) (Some "c") (Some 50) (Some 55%float)
           {| Database.users := []; Database.products := [lot 100 true; lot 5 false];
              Database.demands := []; Database.orders := [] |}).
  vm_compute. reflexivity.
Defined.

(** X14: a filter whose value is false in Python is not applied: asking
    for an empty city, a minimum quantity of 0 or a maximum price of 0.0
    or -0.0 returns what the same query without that filter returns. *)
Theorem get_products_falsy_filters regex_i a db :
  get_products regex_i a (Some "") (Some 0) (Some 0%float) db
  = get_products regex_i a None None None db
  /\ get_products regex_i a None None (Some (-0)%float) db
     = get_products regex_i a None None None db.
Proof. split; reflexivity. Qed.

(** X15: a supplier is listed the stored products that carry the
    supplier's id, active or not, at most 1000; nobody else is listed
    anything. *)
Theorem get_my_products_scoped u db l :
  get_my_products u db = inr l ->
  User.role u = SUPPLIER
  /\ (List.length l <= 1000)%nat
  /\ Forall (fun p => In p (Database.products db)
                      /\ CoalAshProduct.supplier_id p = User.id u) l
  /\ ((Collection.count_documents (product_supplier_is (User.id u))
                                  (Database.products db) <= 1000)%nat ->
      forall p, In p (Database.products db) ->
                CoalAshProduct.supplier_id p = User.id u -> In p l).
Proof.
  unfold get_my_products.
  destruct (negb _) eqn:Hrole; [discriminate|].
  apply supplier_test in Hrole.
  intros H. apply inr_inj in H. subst l.
  split; [assumption|]. split; [apply firstn_le_length|]. split.
  - apply Forall_forall. intros p Hp.
    apply in_to_list_find in Hp. destruct Hp as [Hin Hq].
    split; [assumption|]. now apply String.eqb_eq in Hq.
  - intros Hcap p Hin Hown. rewrite to_list_all by assumption.
    apply filter_In. split; [assumption|].
    unfold product_supplier_is. rewrite Hown. apply String.eqb_refl.
Qed.

Lemma get_my_products_scoped_witness :
  User.role supplier1 = SUPPLIER
  /\ (List.length [lot 5 false] <= 1000)%nat
  /\ Forall (fun p => In p [lot 5 false]
                      /\ CoalAshProduct.supplier_id p = "s1") [lot 5 false]
  /\ ((Collection.count_documents (product_supplier_is "s1") [lot 5 false]
       <= 1000)%nat ->
      forall p, In p [lot 5 false] ->
                CoalAshProduct.supplier_id p = "s1" -> In p [lot 5 false]).
Proof.
  apply (get_my_products_scoped supplier1 (db_with (lot 5 false) [])).
  reflexivity.
Defined.

(** X16: a product that a supplier has created is listed in the
    unfiltered catalogue, with its two dates cut to the millisecond, next
    to what was listed before: provided fewer than 1000 active products
    were stored. *)
Theorem get_products_after_create regex_i d pd u db p db' :
  create_product d pd u db = (inr p, db') ->
  (Collection.count_documents CoalAshProduct.is_active (Database.products db)
   < 1000)%nat ->
  exists listed listed',
    get_products regex_i None None None None db = inr listed
    /\ get_products regex_i None None None None db' = inr listed'
    /\ Permutation listed' (product_kept p :: listed).
Proof.
  intros H Hcap.
  destruct (create_product_ok _ _ _ _ _ _ H) as (_ & -> & ->).
  eexists. eexists. split; [reflexivity|]. split; [reflexivity|].
  cbn [Database.products Database.with_products].
  rewrite to_list_snoc_under; [apply insert_last_perm|reflexivity|].
  unfold Collection.count_documents in *.
  erewrite filter_ext; [exact Hcap|].
  intros x. unfold products_filter. now rewrite !andb_true_r.
Qed.

Lemma get_products_after_create_witness :
  exists listed listed',
    get_products exact_city None None None None (db_with (lot 100 true) [])
    = inr listed
    /\ get_products exact_city None None None None
         (Database.with_products
            [lot 100 true;
             product_kept (new_product drawn (listing 40) supplier1)]
            (db_with (lot 100 true) []))
       = inr listed'
    /\ Permutation listed'
         (product_kept (new_product drawn (listing 40) supplier1) :: listed).
Proof.
  apply (get_products_after_create
           exact_city drawn (listing 40) supplier1 (db_with (lot 100 true) [])).
  - reflexivity.
  - vm_compute. lia.
Defined.

(** X17: posting a demand changes the buyer's suggestions by the group of
    the new demand only, stored with its dates cut to the millisecond
    (and by no group when nothing matches it): provided the buyer had
    fewer than 1000 active demands. *)
Theorem suggestions_after_create_demand d dd u db D db' :
  create_demand d dd u db = (inr D, db') ->
  (Collection.count_documents
     (fun x => demand_buyer_is (User.id u) x && DemandRequest.is_active x)
     (Database.demands db) < 1000)%nat ->
  Permutation (get_matching_suggestions u db')
              (suggest_for_demand db (demand_kept D)
               ++ get_matching_suggestions u db).
Proof.
  intros H Hcap.
  destruct (create_demand_ok _ _ _ _ _ _ H) as (Hrole & -> & ->).
  unfold get_matching_suggestions. rewrite Hrole.
  cbn [Database.demands with_demands].
  rewrite to_list_snoc_under.
  - rewrite flat_map_app. cbn [flat_map]. rewrite app_nil_r.
    apply Permutation_app_comm.
  - unfold demand_buyer_is. simpl. now rewrite String.eqb_refl.
  - assumption.
Qed.

Lemma suggestions_after_create_demand_witness :
  Permutation
    (get_matching_suggestions buyer1
       (with_demands [demand_kept (new_demand drawn (wanted 80) buyer1)]
                     (db_with (lot 100 true) [])))
    (suggest_for_demand (db_with (lot 100 true) [])
                        (demand_kept (new_demand drawn (wanted 80) buyer1))
     ++ get_matching_suggestions buyer1 (db_with (lot 100 true) [])).
Proof.
  apply (suggestions_after_create_demand
           drawn (wanted 80) buyer1 (db_with (lot 100 true) [])).
  - reflexivity.
  - vm_compute. lia.
Defined.

(** X18: the public list of demands shows active stored demands only, and
    a buyer's own list shows stored demands carrying the buyer's id only
    and is refused to anyone else; neither returns more than 1000. *)
Theorem demand_listings_scoped u db :
  ((List.length (get_demands db) <= 1000)%nat
   /\ Forall (fun x => In x (Database.demands db)
                       /\ DemandRequest.is_active x = true) (get_demands db))
  /\ (forall l, get_my_demands u db = inr l ->
                User.role u = BUYER
                /\ (List.length l <= 1000)%nat
                /\ Forall (fun x => In x (Database.demands db)
                                    /\ DemandRequest.buyer_id x = User.id u) l).
Proof.
  split.
  - split; [apply firstn_le_length|].
    apply Forall_forall. intros x Hx. now apply in_to_list_find in Hx.
  - unfold get_my_demands. intros l.
    destruct (negb _) eqn:Hrole; [discriminate|].
    apply role_test in Hrole.
    intros H. apply inr_inj in H. subst l.
    split; [assumption|]. split; [apply firstn_le_length|].
    apply Forall_forall. intros x Hx.
    apply in_to_list_find in Hx. destruct Hx as [Hin Hq].
    split; [assumption|]. now apply String.eqb_eq in Hq.
Qed.

Lemma demand_listings_scoped_witness :
  User.role buyer1 = BUYER
  /\ (List.length [demand_of "d1"] <= 1000)%nat
  /\ Forall (fun x => In x [demand_of "d1"]
                      /\ DemandRequest.buyer_id x = "b1") [demand_of "d1"].
Proof.
  apply (proj2 (demand_listings_scoped
                  buyer1 (db_with (lot 100 true) [demand_of "d1"]))
               [demand_of "d1"]).
  reflexivity.
Defined.

(** ** Further properties of matching *)

Lemma in_suggest_for_product db p0 P ds :
  In (ProductSuggestion P ds) (suggest_for_product db p0) ->
  P = p0
  /\ ds = Collection.to_list 10
            (Collection.find (demands_query p0) (Database.demands db)).
Proof.
  unfold suggest_for_product.
  destruct (Collection.to_list 10 _) as [|x l]; simpl; [tauto|].
  intros [H|[]]. inversion H; subst. auto.
Qed.

Lemma suggest_for_demand_kind db d0 P ds :
  ~ In (ProductSuggestion P ds) (suggest_for_demand db d0).
Proof.
  unfold suggest_for_demand.
  destruct (Collection.to_list 10 _); simpl; [tauto|].
  intros [H|[]]. discriminate H.
Qed.

Lemma suggest_for_product_kind db p0 D ps :
  ~ In (DemandSuggestion D ps) (suggest_for_product db p0).
Proof.
  unfold suggest_for_product.
  destruct (Collection.to_list 10 _); simpl; [tauto|].
  intros [H|[]]. discriminate H.
Qed.

Lemma offered_for_demand_inv b db D P :
  offered_for_demand b db D P ->
  User.role b = BUYER
  /\ In D (own_demands b db)
  /\ In P (Collection.to_list 10
             (Collection.find (products_query D) (Database.products db))).
Proof.
  intros (ps & Hin & HP). unfold get_matching_suggestions in Hin.
  destruct (User.role b); try contradiction.
  - apply in_flat_map in Hin. destruct Hin as (p0 & _ & Hin).
    now apply suggest_for_product_kind in Hin.
  - apply in_flat_map in Hin. destruct Hin as (d0 & Hd0 & Hin).
    apply in_suggest_for_demand in Hin. destruct Hin as [-> ->]. auto.
Qed.

Lemma offered_for_product_inv s db P D :
  offered_for_product s db P D ->
  User.role s = SUPPLIER
  /\ In P (own_products s db)
  /\ In D (Collection.to_list 10
             (Collection.find (demands_query P) (Database.demands db))).
Proof.
  intros (ds & Hin & HD). unfold get_matching_suggestions in Hin.
  destruct (User.role s); try contradiction.
  - apply in_flat_map in Hin. destruct Hin as (p0 & Hp0 & Hin).
    apply in_suggest_for_product in Hin. destruct Hin as [-> ->]. auto.
  - apply in_flat_map in Hin. destruct Hin as (d0 & _ & Hin).
    now apply suggest_for_demand_kind in Hin.
Qed.

Lemma offered_for_demand_intro b db D P :
  User.role b = BUYER ->
  In D (own_demands b db) ->
  In P (Collection.to_list 10
          (Collection.find (products_query D) (Database.products db))) ->
  offered_for_demand b db D P.
Proof.
  intros Hrole HD HP.
  exists (Collection.to_list 10
            (Collection.find (products_query D) (Database.products db))).
  split; [|assumption].
  unfold get_matching_suggestions. rewrite Hrole.
  apply in_flat_map. exists D. split; [exact HD|].
  unfold suggest_for_demand.
  destruct (Collection.to_list 10 _) eqn:Hl; [destruct HP|].
  left. reflexivity.
Qed.

Lemma products_query_true D P :
  products_query D P = true ->
  CoalAshProduct.ash_type P = DemandRequest.ash_type D
  /\ DemandRequest.quantity_required D <= CoalAshProduct.quantity_available P
  /\ PrimFloat.leb (CoalAshProduct.price_per_ton P)
                   (DemandRequest.max_price_per_ton D) = true
  /\ CoalAshProduct.is_active P = true.
Proof.
  unfold products_query. intros H.
  repeat (apply andb_true_iff in H; destruct H as [H ?]).
  repeat split; try assumption.
  - now apply CoalAshType_eqb_eq.
  - now apply Z.geb_le.
Qed.

Lemma demands_query_true P D :
  demands_query P D = true ->
  DemandRequest.ash_type D = CoalAshProduct.ash_type P
  /\ DemandRequest.quantity_required D <= CoalAshProduct.quantity_available P
  /\ PrimFloat.leb (CoalAshProduct.price_per_ton P)
                   (DemandRequest.max_price_per_ton D) = true
  /\ DemandRequest.is_active D = true.
Proof.
  unfold demands_query, float_geb. intros H.
  repeat (apply andb_true_iff in H; destruct H as [H ?]).
  repeat split; try assumption.
  - now apply CoalAshType_eqb_eq.
  - now apply Z.leb_le.
Qed.

(** X19: what a buyer is suggested is sound.  A product suggested for a
    demand is a stored, active product of the demand's ash type, with at
    least the required quantity available and a price no higher than the
    demand's maximum; and the demand is a stored, active demand of the
    caller. *)
Theorem offered_for_demand_sound b db D P :
  offered_for_demand b db D P ->
  (In D (Database.demands db)
   /\ DemandRequest.buyer_id D = User.id b
   /\ DemandRequest.is_active D = true)
  /\ In P (Database.products db)
  /\ CoalAshProduct.ash_type P = DemandRequest.ash_type D
  /\ DemandRequest.quantity_required D <= CoalAshProduct.quantity_available P
  /\ PrimFloat.leb (CoalAshProduct.price_per_ton P)
                   (DemandRequest.max_price_per_ton D) = true
  /\ CoalAshProduct.is_active P = true.
Proof.
  intros H. apply offered_for_demand_inv in H. destruct H as (_ & HD & HP).
  apply in_to_list_find in HD. destruct HD as [HDin HD].
  apply andb_true_iff in HD. destruct HD as [Hown Hactive].
  apply in_to_list_find in HP. destruct HP as [HPin HP].
  apply products_query_true in HP.
  split; [|split; [assumption|assumption]].
  repeat split; try assumption. now apply String.eqb_eq in Hown.
Qed.

Lemma offered_for_demand_sound_witness :
  (In (demand_of "d1") [demand_of "d1"]
   /\ DemandRequest.buyer_id (demand_of "d1") = "b1"
   /\ DemandRequest.is_active (demand_of "d1") = true)
  /\ In (lot 100 true) [lot 100 true]
  /\ FLY_ASH = FLY_ASH
  /\ 80 <= 100
  /\ PrimFloat.leb 50%float 60%float = true
  /\ true = true.
Proof.
  apply (offered_for_demand_sound
           buyer1 (db_with (lot 100 true) [demand_of "d1"])
           (demand_of "d1") (lot 100 true)).
  exists [lot 100 true]. split.
  - vm_compute. left. reflexivity.
  - left. reflexivity.
Defined.

(** X20: what a supplier is suggested is sound.  A demand suggested for a
    product is a stored, active demand of the product's ash type, asking
    for no more than is available and accepting the product's price; and
    the product is a stored, active product of the caller. *)
Theorem offered_for_product_sound s db P D :
  offered_for_product s db P D ->
  (In P (Database.products db)
   /\ CoalAshProduct.supplier_id P = User.id s
   /\ CoalAshProduct.is_active P = true)
  /\ In D (Database.demands db)
  /\ DemandRequest.ash_type D = CoalAshProduct.ash_type P
  /\ DemandRequest.quantity_required D <= CoalAshProduct.quantity_available P
  /\ PrimFloat.leb (CoalAshProduct.price_per_ton P)
                   (DemandRequest.max_price_per_ton D) = true
  /\ DemandRequest.is_active D = true.
Proof.
  intros H. apply offered_for_product_inv in H. destruct H as (_ & HP & HD).
  apply in_to_list_find in HP. destruct HP as [HPin HP].
  apply andb_true_iff in HP. destruct HP as [Hown Hactive].
  apply in_to_list_find in HD. destruct HD as [HDin HD].
  apply demands_query_true in HD.
  split; [|split; [assumption|assumption]].
  repeat split; try assumption. now apply String.eqb_eq in Hown.
Qed.

Lemma offered_for_product_sound_witness :
  (In (lot 100 true) [lot 100 true]
   /\ CoalAshProduct.supplier_id (lot 100 true) = "s1"
   /\ CoalAshProduct.is_active (lot 100 true) = true)
  /\ In (demand_of "d1") [demand_of "d1"]
  /\ FLY_ASH = FLY_ASH
  /\ 80 <= 100
  /\ PrimFloat.leb 50%float 60%float = true
  /\ true = true.
Proof.
  apply (offered_for_product_sound
           supplier1 (db_with (lot 100 true) [demand_of "d1"])
           (lot 100 true) (demand_of "d1")).
  exists [demand_of "d1"]. split.
  - vm_compute. left. reflexivity.
  - left. reflexivity.
Defined.

(** X21: within the caps the buyer's suggestions are complete: when at
    most 10 products answer the demand's query and the buyer has at most
    1000 active demands, every stored product that answers the query of a
    stored, active demand of the buyer is suggested for it. *)
Theorem offered_for_demand_complete b db D P :
  User.role b = BUYER ->
  In D (Database.demands db) ->
  DemandRequest.buyer_id D = User.id b ->
  DemandRequest.is_active D = true ->
  In P (Database.products db) ->
  products_query D P = true ->
  (Collection.count_documents (products_query D) (Database.products db) <= 10)%nat ->
  (Collection.count_documents
     (fun d => demand_buyer_is (User.id b) d && DemandRequest.is_active d)
     (Database.demands db) <= 1000)%nat ->
  offered_for_demand b db D P.
Proof.
  intros Hrole HDin Hown Hactive HPin HP Hten Hthousand.
  apply offered_for_demand_intro; [assumption| |].
  - unfold own_demands. rewrite to_list_all by assumption.
    apply filter_In. split; [assumption|].
    unfold demand_buyer_is. now rewrite Hown, String.eqb_refl, Hactive.
  - rewrite to_list_all by assumption. apply filter_In. auto.
Qed.

Lemma offered_for_demand_complete_witness :
  offered_for_demand buyer1 (db_with (lot 100 true) [demand_of "d1"])
                     (demand_of "d1") (lot 100 true).
Proof.
  apply offered_for_demand_complete.
  - reflexivity.
  - left. reflexivity.
  - reflexivity.
  - reflexivity.
  - left. reflexivity.
  - reflexivity.
  - vm_compute. lia.
  - vm_compute. lia.
Defined.

(** X22: symmetry read from the supplier's side.  If demand D is
    suggested to the supplier for product P, then P is suggested for D to
    the buyer who posted D, provided at most 10 products answer D's query
    and that buyer has at most 1000 active demands. *)
Theorem matching_symmetric_from_supplier s b db P D :
  User.role b = BUYER ->
  DemandRequest.buyer_id D = User.id b ->
  (Collection.count_documents (products_query D) (Database.products db) <= 10)%nat ->
  (Collection.count_documents
     (fun d => demand_buyer_is (User.id b) d && DemandRequest.is_active d)
     (Database.demands db) <= 1000)%nat ->
  offered_for_product s db P D ->
  offered_for_demand b db D P.
Proof.
  intros Hrole Hown Hten Hthousand H.
  apply offered_for_product_inv in H. destruct H as (_ & HP & HD).
  apply in_to_list_find in HP. destruct HP as [HPin HP].
  apply andb_true_iff in HP. destruct HP as [_ HPactive].
  apply in_to_list_find in HD. destruct HD as [HDin HD].
  pose proof (demands_query_true _ _ HD) as (_ & _ & _ & HDactive).
  rewrite (queries_agree P D HPactive HDactive) in HD.
  apply offered_for_demand_intro; [assumption| |].
  - unfold own_demands. rewrite to_list_all by assumption.
    apply filter_In. split; [assumption|].
    unfold demand_buyer_is. now rewrite Hown, String.eqb_refl, HDactive.
  - rewrite to_list_all by assumption. apply filter_In. auto.
Qed.

Lemma matching_symmetric_from_supplier_witness :
  offered_for_demand buyer1 (db_with (lot 100 true) [demand_of "d1"])
                     (demand_of "d1") (lot 100 true).
Proof.
  apply (matching_symmetric_from_supplier supplier1).
  - reflexivity.
  - reflexivity.
  - vm_compute. lia.
  - vm_compute. lia.
  - exists [demand_of "d1"]. split.
    + vm_compute. left. reflexivity.
    + left. reflexivity.
Defined.

(** X23: no suggestion is empty: an anchor for which nothing matches is
    left out, so every group returned carries at least one counterpart. *)
Theorem matching_no_empty_group u db :
  Forall (fun s => (1 <= counterparts s)%nat) (get_matching_suggestions u db).
Proof.
  unfold get_matching_suggestions.
  destruct (User.role u); try constructor;
    apply Forall_flat_map, Forall_forall; intros anchor _.
  - unfold suggest_for_product.
    destruct (Collection.to_list 10 _); constructor; [simpl; lia|constructor].
  - unfold suggest_for_demand.
    destruct (Collection.to_list 10 _); constructor; [simpl; lia|constructor].
Qed.

(** ** Further properties of the dashboard *)

Lemma insert_created_at_desc_perm o l :
  Permutation (insert_created_at_desc o l) (o :: l).
Proof.
  induction l as [|x rest IH]; simpl; [reflexivity|].
  destruct (_ <=? _); [reflexivity|].
  rewrite IH. apply perm_swap.
Qed.

Lemma sort_created_at_desc_perm c :
  Permutation (sort_created_at_desc c) c.
Proof.
  induction c as [|o c IH]; simpl; [reflexivity|].
  rewrite insert_created_at_desc_perm. now constructor.
Qed.

Lemma insert_created_at_desc_sorted o l :
  StronglySorted not_before l ->
  StronglySorted not_before (insert_created_at_desc o l).
Proof.
  induction 1 as [|x rest Hrest IH Hx]; simpl.
  - repeat constructor.
  - destruct (Z.leb_spec (Order.created_at x) (Order.created_at o)) as [Hle|Hlt].
    + constructor; [constructor; assumption|].
      constructor; [exact Hle|].
      eapply Forall_impl; [|exact Hx].
      unfold not_before. intros; lia.
    + constructor; [assumption|].
      eapply Permutation_Forall;
        [symmetry; apply insert_created_at_desc_perm|].
      constructor; [unfold not_before; lia | assumption].
Qed.

Lemma sort_created_at_desc_sorted c :
  StronglySorted not_before (sort_created_at_desc c).
Proof.
  induction c as [|o c IH]; simpl; [constructor|].
  now apply insert_created_at_desc_sorted.
Qed.

Lemma sorted_app_inv {A} (R : A -> A -> Prop) (l1 l2 : list A) :
  StronglySorted R (l1 ++ l2) ->
  StronglySorted R l1 /\ forall x y, In x l1 -> In y l2 -> R x y.
Proof.
  induction l1 as [|a l1 IH]; simpl; intros H.
  - split; [constructor | intros x y []].
  - inversion H as [|? ? Hs Hf]; subst.
    destruct (IH Hs) as [Hs1 Hcross].
    apply Forall_app in Hf. destruct Hf as [Hf1 Hf2].
    split; [constructor; assumption|].
    intros x y [<-|Hx] Hy; [|now apply Hcross].
    rewrite Forall_forall in Hf2. now apply Hf2.
Qed.

Lemma recent_eq m c :
  recent m c = firstn 5 (sort_created_at_desc (filter m c)).
Proof.
  unfold recent, Collection.to_list, Collection.find.
  now rewrite firstn_firstn.
Qed.

Lemma dashboard_recent_eq group_sum u db dash :
  get_dashboard_analytics group_sum u db = Some dash ->
  dashboard_recent dash = recent (dashboard_scope u) (Database.orders db).
Proof.
  unfold get_dashboard_analytics, dashboard_scope.
  destruct (User.role u); intros H; try discriminate H;
    injection H as <-; reflexivity.
Qed.

(** X24: the recent orders of a dashboard are the latest of the caller's
    scope (all orders for an admin, the caller's own for a supplier or a
    buyer): at most 5 stored orders of the scope, latest first, and every
    order of the scope that is left out was created no later than each
    one shown. *)
Theorem dashboard_recent_latest group_sum u db dash :
  get_dashboard_analytics group_sum u db = Some dash ->
  let shown := dashboard_recent dash in
  (List.length shown <= 5)%nat
  /\ Forall (fun o => In o (Database.orders db) /\ dashboard_scope u o = true) shown
  /\ StronglySorted not_before shown
  /\ forall o, In o (Database.orders db) -> dashboard_scope u o = true ->
               In o shown \/ forall r, In r shown -> not_before r o.
Proof.
  intros H shown. subst shown.
  rewrite (dashboard_recent_eq _ _ _ _ H), recent_eq.
  set (scoped := filter (dashboard_scope u) (Database.orders db)).
  pose proof (sort_created_at_desc_perm scoped) as Hperm.
  pose proof (sort_created_at_desc_sorted scoped) as Hsorted.
  rewrite <- (firstn_skipn 5 (sort_created_at_desc scoped)) in Hsorted.
  apply sorted_app_inv in Hsorted. destruct Hsorted as [Hfirst Hcross].
  split; [apply firstn_le_length|]. split; [|split; [exact Hfirst|]].
  - apply Forall_forall. intros o Ho. apply in_firstn in Ho.
    apply (Permutation_in _ Hperm) in Ho. now apply filter_In in Ho.
  - intros o Hin Hscope.
    assert (Ho : In o (sort_created_at_desc scoped)).
    { apply (Permutation_in _ (Permutation_sym Hperm)).
      apply filter_In. auto. }
    rewrite <- (firstn_skipn 5 (sort_created_at_desc scoped)) in Ho.
    apply in_app_or in Ho. destruct Ho as [Ho|Ho]; [now left|].
    right. intros r Hr. now apply Hcross.
Qed.

Lemma dashboard_recent_latest_witness :
  let shown := [order_at 3; order_at 2; order_at 1] in
  (List.length shown <= 5)%nat
  /\ Forall (fun o => In o (Database.orders db_three_orders)
                      /\ dashboard_scope buyer1 o = true) shown
  /\ StronglySorted not_before shown
  /\ forall o, In o (Database.orders db_three_orders) ->
               dashboard_scope buyer1 o = true ->
               In o shown \/ forall r, In r shown -> not_before r o.
Proof.
  apply (dashboard_recent_latest
           running_sum buyer1 db_three_orders
           (BuyerDashboard 0 3 (PyFloat 150%float)
                           [order_at 3; order_at 2; order_at 1])).
  vm_compute. reflexivity.
Defined.

(** X25: a new order is counted in exactly the dashboards it belongs
    to.  After a successful order, the order count of a caller's
    dashboard is one more if the order is in the caller's scope (any
    admin, the buyer who placed it, the supplier of the product) and the
    same otherwise; the counts of users, products and demands do not
    move. *)
Theorem dashboard_after_order group_sum d od u db o db' v dash :
  create_order d od u db = (inr o, db') ->
  get_dashboard_analytics group_sum v db = Some dash ->
  exists dash',
    get_dashboard_analytics group_sum v db' = Some dash'
    /\ dashboard_orders dash'
       = (dashboard_orders dash + if dashboard_scope v o then 1 else 0)%nat
    /\ dashboard_other_counts dash' = dashboard_other_counts dash.
Proof.
  intros H Hdash.
  destruct (create_order_ok _ _ _ _ _ _ H)
    as (_ & p & total & _ & _ & _ & -> & ->).
  assert (Hcount : forall q,
             Collection.count_documents q
               (Database.orders (settled d od u p total db))
             = (Collection.count_documents q (Database.orders db)
                + if q (order_kept (new_order d od u p total)) then 1 else 0)%nat).
  { intros q. apply count_snoc. }
  assert (Hprod : forall q,
             (forall x n, q (CoalAshProduct.inc_quantity_available n x) = q x) ->
             Collection.count_documents q
               (Database.products (settled d od u p total db))
             = Collection.count_documents q (Database.products db)).
  { intros q Hq. unfold settled. simpl. apply count_update_one.
    intros x. apply Hq. }
  unfold get_dashboard_analytics in *. unfold dashboard_scope.
  destruct (User.role v); try discriminate Hdash;
    injection Hdash as <-; eexists; (split; [reflexivity|]);
    cbn [dashboard_orders dashboard_other_counts];
    rewrite Hcount; (split; [reflexivity|]);
    rewrite ?Hprod by reflexivity; reflexivity.
Qed.

Lemma dashboard_after_order_witness :
  exists dash',
    get_dashboard_analytics running_sum admin1
      (settled drawn (request 30) buyer1 (lot 100 true) 1500%float
               (db_with (lot 100 true) []))
    = Some dash'
    /\ dashboard_orders dash' = (0 + 1)%nat
    /\ dashboard_other_counts dash' = [3; 1; 0]%nat.
Proof.
  apply (dashboard_after_order
           running_sum drawn (request 30) buyer1 (db_with (lot 100 true) [])
           (new_order drawn (request 30) buyer1 (lot 100 true) 1500%float)
           _ admin1 (AdminDashboard 3 1 0 0 [])).
  - vm_compute. reflexivity.
  - vm_compute. reflexivity.
Defined.

(** ** Properties of registration, login and the admin script *)

Lemma find_one_none {A} (q : A -> bool) (c : list A) :
  Collection.find_one q c = None <-> Forall (fun x => q x = false) c.
Proof.
  unfold Collection.find_one. split.
  - intros H. apply Forall_forall. intros x Hx. exact (find_none _ _ H x Hx).
  - induction 1 as [|x l Hx _ IH]; simpl; [reflexivity|]. now rewrite Hx.
Qed.

Lemma email_taken users email :
  In email (emails users) <->
  exists doc, Collection.find_one (user_by_email email) users = Some doc.
Proof.
  split.
  - intros Hin.
    destruct (Collection.find_one _ users) as [doc|] eqn:Hfind; [now exists doc|].
    apply find_one_none in Hfind. rewrite Forall_forall in Hfind.
    apply in_map_iff in Hin. destruct Hin as (doc & Hdoc & Hin).
    specialize (Hfind doc Hin). unfold user_by_email in Hfind.
    rewrite Hdoc, String.eqb_refl in Hfind. discriminate.
  - intros (doc & Hfind). apply find_one_in in Hfind.
    destruct Hfind as [Hin Hq]. apply String.eqb_eq in Hq.
    apply in_map_iff. now exists doc.
Qed.

(** X26: an e-mail can be registered once.  When some stored user already
    has the e-mail, registration is refused with 400 "Email already
    registered" before the password is even hashed, and the collection is
    left as it was. *)
Theorem register_email_taken hashpw d salt user_data users :
  In (UserCreate.email user_data) (emails users) ->
  register hashpw d salt user_data users
  = (inl (Handled (HTTPException 400 "Email already registered")), users).
Proof.
  intros Hin. apply email_taken in Hin. destruct Hin as (doc & Hfind).
  unfold register. now rewrite Hfind.
Qed.

Lemma register_email_taken_witness :
  let users := [ {| UserDoc.user := buyer1; UserDoc.password_hash := "pw" |} ] in
  register plain_hashpw drawn "salt" (signup "b1@example.com" "other" SUPPLIER) users
  = (inl (Handled (HTTPException 400 "Email already registered")), users).
Proof.
  apply (register_email_taken plain_hashpw drawn "salt").
  left. reflexivity.
Defined.

(** X27: registration keeps e-mails unique: if no two stored users share
    an e-mail, none do after any registration, accepted or refused. *)
Theorem register_keeps_emails_unique hashpw d salt user_data users :
  NoDup (emails users) ->
  NoDup (emails (snd (register hashpw d salt user_data users))).
Proof.
  intros Hnodup. unfold register.
  destruct (Collection.find_one _ users) as [doc|] eqn:Hfind; [assumption|].
  destruct (hashpw _ _) as [h|]; [|assumption].
  simpl. unfold emails, Collection.insert_one. rewrite map_app. simpl.
  apply NoDup_app; [assumption | repeat constructor; intros [] |].
  intros e He [<-|[]]. simpl in He.
  apply email_taken in He. destruct He as (doc & Hdoc). congruence.
Qed.

Lemma register_keeps_emails_unique_witness :
  NoDup (emails (snd (register plain_hashpw drawn "salt"
                               (signup "n@example.com" "pw" BUYER)
                               [ {| UserDoc.user := buyer1;
                                    UserDoc.password_hash := "pw" |} ]))).
Proof.
  apply register_keeps_emails_unique.
  repeat constructor; simpl; tauto.
Defined.

(** X28: how a login fails.  It is answered 401 "Invalid credentials"
    exactly when the e-mail is unknown or bcrypt checks the password
    against the stored hash and rejects it, the two not being told apart;
    it fails with bcrypt's own error exactly when the e-mail is known and
    bcrypt raises, which does tell a known e-mail from an unknown one. *)
Theorem login_failures checkpw jwt_encode now login_data users :
  (login checkpw jwt_encode now login_data users
   = inl (Handled (HTTPException 401 "Invalid credentials"))
   <-> (~ In (UserLogin.email login_data) (emails users)
        \/ exists doc,
            Collection.find_one (user_by_email (UserLogin.email login_data)) users
            = Some doc
            /\ checkpw (UserLogin.password login_data) (UserDoc.password_hash doc)
               = Some false))
  /\ (login checkpw jwt_encode now login_data users = inl ValueError
      <-> exists doc,
          Collection.find_one (user_by_email (UserLogin.email login_data)) users
          = Some doc
          /\ checkpw (UserLogin.password login_data) (UserDoc.password_hash doc)
             = None).
Proof.
  unfold login.
  destruct (Collection.find_one _ users) as [doc|] eqn:Hfind.
  - assert (Hknown : In (UserLogin.email login_data) (emails users))
      by (apply email_taken; now exists doc).
    destruct (checkpw _ _) as [[|]|] eqn:Hcheck; split; split;
      try discriminate; try reflexivity.
    + intros [Hno|(doc' & Hdoc' & Hc)]; [contradiction|].
      injection Hdoc' as <-. congruence.
    + intros (doc' & Hdoc' & Hc). injection Hdoc' as <-. congruence.
    + intros _. right. exists doc. auto.
    + intros (doc' & Hdoc' & Hc). injection Hdoc' as <-. congruence.
    + intros [Hno|(doc' & Hdoc' & Hc)]; [contradiction|].
      injection Hdoc' as <-. congruence.
    + intros _. exists doc. auto.
  - split; split; try discriminate; try reflexivity.
    + intros _. left. intros Hin. apply email_taken in Hin.
      destruct Hin as (doc & Hdoc). congruence.
    + intros (doc & Hdoc & _). discriminate.
Qed.

Lemma login_failures_witness :
  let users := [ {| UserDoc.user := buyer1; UserDoc.password_hash := "pw" |} ] in
  login plain_checkpw plain_jwt 0
        {| UserLogin.email := "b1@example.com"; UserLogin.password := "guess" |}
        users
  = inl (Handled (HTTPException 401 "Invalid credentials"))
  /\ login plain_checkpw plain_jwt 0
           {| UserLogin.email := "nobody@example.com"; UserLogin.password := "pw" |}
           users
     = inl (Handled (HTTPException 401 "Invalid credentials")).
Proof.
  split.
  - apply (proj1 (login_failures plain_checkpw plain_jwt 0 _ _)).
    right. eexists. split; reflexivity.
  - apply (proj1 (login_failures plain_checkpw plain_jwt 0 _ _)).
    left. simpl. intros [H|[]]. discriminate H.
Defined.

(** X29: registration and login compose.  After a registration that was
    accepted, logging in with the same e-mail and a password that bcrypt
    checks against the stored hash returns the registered user as stored,
    that is with its two dates cut to the millisecond, whatever role was
    asked for and not yet verified, with a bearer token for the user's id
    that expires 24 hours after the login. *)
Theorem register_then_login hashpw checkpw jwt_encode d salt user_data users
        registered users' now password :
  register hashpw d salt user_data users = (inr registered, users') ->
  (forall h, hashpw (UserCreate.password user_data) salt = Some h ->
             checkpw password h = Some true) ->
  User.role registered = UserCreate.role user_data
  /\ User.kyc_verified registered = false
  /\ login checkpw jwt_encode now
           {| UserLogin.email := UserCreate.email user_data;
              UserLogin.password := password |} users'
     = inr {| access_token :=
                jwt_encode (User.id registered) (now + 24 * 3600 * 1000000);
              token_type := "bearer";
              user := user_kept registered |}.
Proof.
  unfold register. intros H Hcheck.
  destruct (Collection.find_one _ users) as [doc|] eqn:Hfind; [discriminate|].
  destruct (hashpw _ _) as [h|] eqn:Hhash; [|discriminate].
  unfold Collection.insert_one, encode, encode_user in H.
  injection H as <- <-.
  split; [reflexivity|]. split; [reflexivity|].
  unfold login. cbn [UserLogin.email UserLogin.password].
  rewrite find_one_snoc, Hfind.
  unfold user_by_email at 1.
  cbn [UserDoc.user UserDoc.password_hash User.email user_kept new_user].
  rewrite String.eqb_refl.
  cbn [UserDoc.user UserDoc.password_hash].
  rewrite (Hcheck h eq_refl). reflexivity.
Qed.

Lemma register_then_login_witness :
  let registered := new_user drawn (signup "n@example.com" "pw" ADMIN) in
  User.role registered = ADMIN
  /\ User.kyc_verified registered = false
  /\ login plain_checkpw plain_jwt 7
           {| UserLogin.email := "n@example.com"; UserLogin.password := "pw" |}
           [ {| UserDoc.user := user_kept registered;
                UserDoc.password_hash := "pw" |} ]
     = inr {| access_token := plain_jwt "o1" (7 + 24 * 3600 * 1000000);
              token_type := "bearer";
              user := user_kept registered |}.
Proof.
  apply (register_then_login plain_hashpw plain_checkpw plain_jwt
                             drawn "salt" (signup "n@example.com" "pw" ADMIN) []).
  - reflexivity.
  - intros h Hh. injection Hh as <-. reflexivity.
Defined.

(** X30: the admin script is idempotent.  Once it has run with a hash
    that bcrypt produced, a user with the admin e-mail is stored, a second
    run changes nothing whatever it draws, and at most one document was
    added. *)
Theorem create_admin_user_idempotent hashpw d1 salt1 d2 salt2 users h :
  hashpw "admin" salt1 = Some h ->
  let once := create_admin_user hashpw d1 salt1 users in
  In "admin@gmail.com" (emails once)
  /\ create_admin_user hashpw d2 salt2 once = once
  /\ (List.length once <= List.length users + 1)%nat.
Proof.
  intros Hhash once.
  assert (Hin : In "admin@gmail.com" (emails once)).
  { subst once. unfold create_admin_user.
    destruct (Collection.find_one _ users) as [doc|] eqn:Hfind.
    - apply email_taken. now exists doc.
    - rewrite Hhash. unfold emails, Collection.insert_one, encode, encode_user.
      rewrite map_app. apply in_or_app. right. left. reflexivity. }
  split; [exact Hin|]. split.
  - apply email_taken in Hin. destruct Hin as (doc & Hdoc).
    unfold create_admin_user at 1. now rewrite Hdoc.
  - subst once. unfold create_admin_user.
    destruct (Collection.find_one _ users); [lia|].
    rewrite Hhash. unfold Collection.insert_one, encode, encode_user.
    rewrite length_app. simpl. lia.
Qed.

Lemma create_admin_user_idempotent_witness :
  let once := create_admin_user plain_hashpw drawn "salt" [] in
  In "admin@gmail.com" (emails once)
  /\ create_admin_user plain_hashpw
       {| uuid4 := "o2"; now_created := 5; now_updated := 6 |} "pepper" once
     = once
  /\ (List.length once <= List.length (@nil UserDoc.t) + 1)%nat.
Proof.
  apply (create_admin_user_idempotent
           plain_hashpw drawn "salt"
           {| uuid4 := "o2"; now_created := 5; now_updated := 6 |} "pepper"
           [] "admin").
  reflexivity.
Defined.
